(** * Resilience layer of the system-design repository

    A shallow embedding of the two [RestUtility] classes (the retrying HTTP
    helper, with and without a circuit breaker), of [OrderService] (the
    critical section guarded by a distributed lock) with the [RedisService]
    it is built on, and of the parameter binding module, with the properties
    of the design checked against them.

    The repository wires together npm packages (axios, axios-retry, opossum,
    redlock) whose code is not part of it.  Each package is modelled in a
    module of its own, and the comment at the head of that module says what
    the model is taken from. *)

From Stdlib Require Import ZArith Lia Bool.
From Stdlib Require QArith.
From stdpp Require Import base option strings list gmap.

Local Open Scope string_scope.
Local Open Scope list_scope.
Local Open Scope Z_scope.

(** ** Promises and errors *)

Module Js.

(** How an awaited promise settles. *)
Inductive Result (E A : Type) : Type :=
| Resolved (a : A)
| Rejected (e : E).
Arguments Resolved {E A} a.
Arguments Rejected {E A} e.

Definition isResolved {E A} (r : Result E A) : bool :=
  match r with Resolved _ => true | Rejected _ => false end.

(** [object] values of the source (headers, request bodies). *)
Definition JsObject : Type := list (string * string).

End Js.
Export Js.

(** ** axios: one HTTP exchange *)

Module Axios.

(** The request configuration objects built by [get], [post] and [put]. *)
Record Config : Type := mkConfig {
  method : string;
  baseURL : string;
  url : string;
  data : option JsObject;
  headers : JsObject;
  timeout : Z
}.

Record Response : Type := mkResponse {
  status : Z;
  body : string          (* [response.data] *)
}.

(** The error axios rejects with: [error.code], [error.response],
    [error.config]. *)
Record AxiosError : Type := mkAxiosError {
  code : option string;
  response : option Response;
  config : Config
}.

(** What comes back from the remote end for one request: an HTTP answer,
    or nothing (connection refused, reset, DNS failure ...) with the
    error code of the transport. *)
Inductive Wire : Type :=
| Answer (r : Response)
| NoAnswer (errno : option string).

Record Reply : Type := mkReply {
  took : Z;              (* milliseconds until the exchange settles *)
  wire : Wire
}.

(** The remote dependency (the work function of the design): what the
    [k]-th request it receives is answered with. *)
Definition Work : Type := nat -> Config -> Reply.

(** The observable world: the clock, the requests that reached the remote
    end and the pauses taken between attempts, both in order. *)
Record World : Type := mkWorld {
  clock : Z;
  sent : list Config;
  sleeps : list Z
}.

Definition start : World := {| clock := 0; sent := []; sleeps := [] |}.

Definition sleep (ms : Z) (w : World) : World :=
  {| clock := clock w + ms; sent := sent w; sleeps := sleeps w ++ [ms] |}.

(** axios' default [validateStatus]. *)
Definition validateStatus (s : Z) : bool := (200 <=? s) && (s <? 300).

(** One exchange: the request reaches the remote end; axios rejects with
    [ECONNABORTED] when [config.timeout] (non-zero) passes first, resolves
    on a status that validates, and rejects with the response attached
    otherwise. *)
Definition dispatch (work : Work) (cfg : Config) (w : World)
  : Result AxiosError Response * World :=
  let rep := work (length (sent w)) cfg in
  let late := (0 <? timeout cfg) && (timeout cfg <=? took rep) in
  let w' := {| clock := clock w + (if late then timeout cfg else took rep);
               sent := sent w ++ [cfg];
               sleeps := sleeps w |} in
  if late then
    (Rejected {| code := Some "ECONNABORTED"; response := None; config := cfg |}, w')
  else
    match wire rep with
    | Answer r =>
        if validateStatus (status r) then (Resolved r, w')
        else (Rejected {| code := Some (if status r <? 500 then "ERR_BAD_REQUEST"
                                        else "ERR_BAD_RESPONSE");
                          response := Some r; config := cfg |}, w')
    | NoAnswer c =>
        (Rejected {| code := c; response := None; config := cfg |}, w')
    end.

End Axios.
Export Axios.

(** ** axios-retry

    axios-retry is an npm dependency.  Its interceptor is modelled by the
    contract the source relies on: [applyRetry]'s own comment (the count
    handed over as [retries] is the number of retry attempts), and the
    package's documentation ([retryCondition] decides whether a failed
    request is retried; [retryDelay] receives the number of the retry,
    counted from 1, and gives the pause before it).  This is the attempt
    sequence of section 4.3 of the design.  By default the package charges
    every exchange and every pause to [config.timeout] and gives up when it
    is used up ([shouldResetTimeout] is off); this budget is not part of the
    model, where every attempt runs under the configured timeout.  The
    statements about retried calls therefore either bound what is sent from
    above, or take the timeout to be off, or to be longer than the whole
    call. *)

Module AxiosRetry.

Record IAxiosRetryConfig : Type := mkRetryConfig {
  retries : Z;
  retryCondition : AxiosError -> bool;
  retryDelay : Z -> Z
}.

(** An axios instance: its defaults and the retry interceptor installed on
    it, if any. *)
Record AxiosInstance : Type := mkInstance {
  defaults : Config;
  interceptor : option IAxiosRetryConfig
}.

(** [axios.create(config)]: a fresh instance, no interceptor. *)
Definition create (cfg : Config) : AxiosInstance :=
  {| defaults := cfg; interceptor := None |}.

(** [axiosRetry(instance, options)] installs the interceptor on that
    instance (and on no other). *)
Definition axiosRetry (instance : AxiosInstance) (o : IAxiosRetryConfig) : AxiosInstance :=
  {| defaults := defaults instance; interceptor := Some o |}.

(** The interceptor: [left] retries remain, the next one is number
    [retryCount + 1]. *)
Fixpoint retrying (work : Work) (o : IAxiosRetryConfig) (left : nat) (retryCount : Z)
    (cfg : Config) (w : World) : Result AxiosError Response * World :=
  match dispatch work cfg w with
  | (Resolved r, w1) => (Resolved r, w1)
  | (Rejected e, w1) =>
      match left with
      | O => (Rejected e, w1)
      | S left' =>
          if retryCondition o e then
            retrying work o left' (retryCount + 1) cfg
                     (sleep (retryDelay o (retryCount + 1)) w1)
          else (Rejected e, w1)
      end
  end.

(** [instance.request(config)]. *)
Definition request (work : Work) (instance : AxiosInstance) (cfg : Config) (w : World)
  : Result AxiosError Response * World :=
  match interceptor instance with
  | None => dispatch work cfg w
  | Some o => retrying work o (Z.to_nat (retries o)) 0 cfg w
  end.

(** The exported predicates of axios-retry 4 (used to instantiate the
    library parameter of [RestUtility] on concrete inputs).  [denyList] is
    the list of error codes of is-retry-allowed, on which
    [isNetworkError] relies. *)
Definition denyList : list string :=
  ["ENOTFOUND"; "ENETUNREACH";
   "UNABLE_TO_GET_ISSUER_CERT"; "UNABLE_TO_GET_CRL"; "UNABLE_TO_DECRYPT_CERT_SIGNATURE";
   "UNABLE_TO_DECRYPT_CRL_SIGNATURE"; "UNABLE_TO_DECODE_ISSUER_PUBLIC_KEY";
   "CERT_SIGNATURE_FAILURE"; "CRL_SIGNATURE_FAILURE"; "CERT_NOT_YET_VALID";
   "CERT_HAS_EXPIRED"; "CRL_NOT_YET_VALID"; "CRL_HAS_EXPIRED";
   "ERROR_IN_CERT_NOT_BEFORE_FIELD"; "ERROR_IN_CERT_NOT_AFTER_FIELD";
   "ERROR_IN_CRL_LAST_UPDATE_FIELD"; "ERROR_IN_CRL_NEXT_UPDATE_FIELD"; "OUT_OF_MEM";
   "DEPTH_ZERO_SELF_SIGNED_CERT"; "SELF_SIGNED_CERT_IN_CHAIN";
   "UNABLE_TO_GET_ISSUER_CERT_LOCALLY"; "UNABLE_TO_VERIFY_LEAF_SIGNATURE";
   "CERT_CHAIN_TOO_LONG"; "CERT_REVOKED"; "INVALID_CA"; "PATH_LENGTH_EXCEEDED";
   "INVALID_PURPOSE"; "CERT_UNTRUSTED"; "CERT_REJECTED"; "HOSTNAME_MISMATCH"].

Definition isNetworkError (e : AxiosError) : bool :=
  match response e, code e with
  | None, Some c =>
      negb (bool_decide (c ∈ ["ERR_CANCELED"; "ECONNABORTED"]))
      && negb (bool_decide (c ∈ denyList))
  | _, _ => false
  end.

(** No response, or a response with status 429 or 5xx; never a timeout. *)
Definition isRetryableError (e : AxiosError) : bool :=
  negb (bool_decide (code e = Some "ECONNABORTED"))
  && match response e with
     | None => true
     | Some r => (status r =? 429) || ((500 <=? status r) && (status r <=? 599))
     end.

Definition isIdempotentRequestError (e : AxiosError) : bool :=
  isRetryableError e
  && bool_decide (method (config e) ∈ ["get"; "head"; "options"; "put"; "delete"]).

Definition isNetworkOrIdempotentRequestError (e : AxiosError) : bool :=
  isNetworkError e || isIdempotentRequestError e.

End AxiosRetry.
Export AxiosRetry.

(** [StatusCodes.INTERNAL_SERVER_ERROR] of http-status-codes. *)
Definition INTERNAL_SERVER_ERROR : Z := 500.

(** The numbers of the source are doubles.  [Math.pow(2, n) * 1000] is the
    integer [2^n * 1000], exactly, for the retry numbers 0 to 1014; from
    1015 on the product exceeds the largest double and is [Infinity]. *)
Definition maxExactRetryNumber : Z := 1014.

(** The largest finite double, [(2^53 - 1) * 2^971]. *)
Definition maxDouble : Z := (2 ^ 53 - 1) * 2 ^ 971.

(** Errors a caller of the repository's classes can be handed. *)
Inductive JsError : Type :=
| AxiosErr (e : AxiosError)          (* an axios rejection, passed on as it is *)
| CircuitOpenError                   (* the breaker refused the call *)
| TimeoutError                       (* the breaker's own timeout fired *)
| QuorumNotReachedError              (* the lock could not be acquired *)
| LockReleaseError                   (* the lock could not be released *)
| RuntimeError (what : string)       (* any other failure of a callee *)
| Error (message : string).          (* [new Error(message)] *)

(** Default values of the optional parameters of [get], [post], [put]. *)
Definition default_headers : JsObject := [].
Definition default_data : JsObject := [].
Definition default_retry : bool := false.
Definition default_retryCount : Z := 3.
Definition default_timeout : Z := 5000.

(** ** RestUtility, the variant that sends on the instance it configured
    (the second class of src/unnamed/part_000) *)

Module RestUtility.
Section WithAxiosRetry.

(** [axiosRetry.isNetworkOrIdempotentRequestError], a predicate of the
    package. *)
Variable isNetworkOrIdempotentRequestError : AxiosError -> bool.

(** The [retryCondition] callback of [applyRetry]; [a && b] on a missing
    [error.response] is falsy. *)
Definition retryCondition (error : AxiosError) : bool :=
  isNetworkOrIdempotentRequestError error
  || match response error with
     | Some r => INTERNAL_SERVER_ERROR <=? status r
     | None => false
     end.

(** The [retryDelay] callback of [applyRetry]:
    [Math.pow(2, retryCount) * 1000].  The integer given here is the value
    of the source's double for the retry numbers 0 to
    [maxExactRetryNumber]; beyond it the source gives [Infinity], and
    fractions for negative numbers (which the library never passes). *)
Definition retryDelay (retryCount : Z) : Z := 2 ^ retryCount * 1000.

(** [applyRetry] returns nothing and works on the object it is handed; here
    it returns that object as the call leaves it. *)
Definition applyRetry (shouldRetry : bool) (retryCount : Z) (instance : AxiosInstance)
  : AxiosInstance :=
  if shouldRetry then
    axiosRetry instance (mkRetryConfig retryCount retryCondition retryDelay)
  else instance.

(** [axios.create({ baseURL, timeout })]: the other fields stay at axios'
    defaults. *)
Definition newInstance (baseURL : string) (timeout : Z) : AxiosInstance :=
  create {| method := "get"; baseURL := baseURL; url := ""; data := None;
            headers := []; timeout := timeout |}.

(** [instance.get(url, { headers })], [instance.post(url, data, { headers })],
    [instance.put(...)]: the request configuration is the instance's
    defaults overridden by the arguments. *)
Definition send (work : Work) (instance : AxiosInstance) (verb : string) (endpoint : string)
    (payload : option JsObject) (hdrs : JsObject) (w : World)
  : Result AxiosError Response * World :=
  request work instance
          {| method := verb; baseURL := baseURL (defaults instance); url := endpoint;
             data := payload; headers := hdrs; timeout := timeout (defaults instance) |} w.

(** [try { const response = await ...; return response.data; }
     catch (error) { throw error; }] *)
Definition unwrap (r : Result AxiosError Response) : Result AxiosError string :=
  match r with
  | Resolved response => Resolved (body response)
  | Rejected error => Rejected error
  end.

Definition get (work : Work) (baseURL endpoint : string) (headers : JsObject)
    (retry : bool) (retryCount timeout : Z) (w : World) : Result AxiosError string * World :=
  let axiosInstance := newInstance baseURL timeout in
  let axiosInstance := applyRetry retry retryCount axiosInstance in
  let '(r, w') := send work axiosInstance "get" endpoint None headers w in
  (unwrap r, w').

Definition post (work : Work) (baseURL endpoint : string) (data headers : JsObject)
    (retry : bool) (retryCount timeout : Z) (w : World) : Result AxiosError string * World :=
  let axiosInstance := newInstance baseURL timeout in
  let axiosInstance := applyRetry retry retryCount axiosInstance in
  let '(r, w') := send work axiosInstance "post" endpoint (Some data) headers w in
  (unwrap r, w').

Definition put (work : Work) (baseURL endpoint : string) (data headers : JsObject)
    (retry : bool) (retryCount timeout : Z) (w : World) : Result AxiosError string * World :=
  let axiosInstance := newInstance baseURL timeout in
  let axiosInstance := applyRetry retry retryCount axiosInstance in
  let '(r, w') := send work axiosInstance "put" endpoint (Some data) headers w in
  (unwrap r, w').

End WithAxiosRetry.
End RestUtility.

(** ** The circuit breaker *)

Module CircuitBreaker.

Inductive Status : Type := CLOSED | OPEN | HALF_OPEN.

#[global] Instance Status_eq_dec : EqDecision Status.
Proof. solve_decision. Defined.

(** The options [RestUtility]'s constructor passes, and the minimum volume,
    which it leaves to the breaker's default. *)
Record Options : Type := mkOptions {
  timeout : Z;
  errorThresholdPercentage : Z;
  resetTimeout : Z;
  minimumVolume : Z
}.

Record State : Type := mkState {
  status : Status;
  rollingFailureCount : Z;
  rollingTotalCount : Z;
  openedAt : Z;
  trialInFlight : bool
}.

Definition initial : State :=
  {| status := CLOSED; rollingFailureCount := 0; rollingTotalCount := 0;
     openedAt := 0; trialInFlight := false |}.

(** Modelled from the spec: the transition rule of the CLOSED state
    (section 4.2): the breaker trips when
    [rollingTotalCount >= minimumVolume] and
    [rollingFailureCount / rollingTotalCount >= failureThresholdRatio],
    the ratio being [errorThresholdPercentage / 100].  The opossum package
    that the source instantiates is not under src/. *)
Definition tripped (o : Options) (failures total : Z) : bool :=
  (minimumVolume o <=? total) && (0 <? total)
  && (errorThresholdPercentage o * total <=? 100 * failures).

(** Modelled from the spec: the automatic transition of the OPEN state
    (section 4.2): OPEN becomes HALF_OPEN once
    [now - openedAt >= resetTimeout]; opossum is not under src/. *)
Definition refresh (o : Options) (now : Z) (s : State) : State :=
  match status s with
  | OPEN =>
      if resetTimeout o <=? now - openedAt s then
        {| status := HALF_OPEN; rollingFailureCount := rollingFailureCount s;
           rollingTotalCount := rollingTotalCount s; openedAt := openedAt s;
           trialInFlight := false |}
      else s
  | _ => s
  end.

(** Modelled from the spec: the status query made before an attempt
    (sections 4.2 and 4.3, step 1): CLOSED lets every call through, OPEN
    none, HALF_OPEN exactly one trial at a time; opossum is not under
    src/. *)
Definition allow (o : Options) (now : Z) (s : State) : bool * State :=
  let s1 := refresh o now s in
  match status s1 with
  | CLOSED => (true, s1)
  | OPEN => (false, s1)
  | HALF_OPEN =>
      if trialInFlight s1 then (false, s1)
      else (true, {| status := HALF_OPEN; rollingFailureCount := rollingFailureCount s1;
                     rollingTotalCount := rollingTotalCount s1; openedAt := openedAt s1;
                     trialInFlight := true |})
  end.

(** Modelled from the spec: recording the outcome of a call that was let
    through (section 4.2): CLOSED updates the rolling counters and trips on
    [tripped]; the HALF_OPEN trial closes the breaker and resets the
    counters when it succeeds, re-opens it with a new [openedAt] when it
    fails; opossum is not under src/. *)
Definition record (o : Options) (now : Z) (ok : bool) (s : State) : State :=
  match status s with
  | CLOSED =>
      let failures := rollingFailureCount s + (if ok then 0 else 1) in
      let total := rollingTotalCount s + 1 in
      {| status := if tripped o failures total then OPEN else CLOSED;
         rollingFailureCount := failures;
         rollingTotalCount := total;
         openedAt := if tripped o failures total then now else openedAt s;
         trialInFlight := false |}
  | HALF_OPEN =>
      if ok then
        {| status := CLOSED; rollingFailureCount := 0; rollingTotalCount := 0;
           openedAt := openedAt s; trialInFlight := false |}
      else
        {| status := OPEN; rollingFailureCount := rollingFailureCount s;
           rollingTotalCount := rollingTotalCount s; openedAt := now;
           trialInFlight := false |}
  | OPEN => s
  end.

(** Modelled from the spec: the sliding of the window under the rolling
    counters (section 3): outcomes that leave the window are taken off the
    counters, which stay within [0 <= failures <= total]; opossum is not
    under src/. *)
Definition slide (expiredFailures expiredSuccesses : Z) (s : State) : State :=
  let failures := Z.max 0 (rollingFailureCount s - Z.max 0 expiredFailures) in
  let successes :=
    Z.max 0 (rollingTotalCount s - rollingFailureCount s - Z.max 0 expiredSuccesses) in
  {| status := status s; rollingFailureCount := failures;
     rollingTotalCount := failures + successes; openedAt := openedAt s;
     trialInFlight := trialInFlight s |}.

(** Modelled from the spec: [fire], one guarded call (section 4.3, steps 1
    to 3, and the timeout rule of section 4.2): a refused call fails with
    [CircuitOpenError] and the action is not run; an action that has not
    settled within [timeout] counts as a failure; anything else is handed
    back as the action settled it; opossum is not under src/. *)
Definition fire {A} (o : Options) (action : World -> Result JsError A * World)
    (s : State) (w : World) : Result JsError A * State * World :=
  match allow o (clock w) s with
  | (false, s1) => (Rejected CircuitOpenError, s1, w)
  | (true, s1) =>
      let '(r, w1) := action w in
      if (0 <? timeout o) && (timeout o <=? clock w1 - clock w) then
        let w2 := {| clock := clock w + timeout o; sent := sent w1; sleeps := sleeps w1 |} in
        (Rejected TimeoutError, record o (clock w2) false s1, w2)
      else (r, record o (clock w1) (isResolved r) s1, w1)
  end.

(** What drives the breaker: outcomes of admitted calls, status queries
    and the passing of the window. *)
Inductive Input : Type :=
| Outcome (now : Z) (ok : bool)
| Query (now : Z)
| Slide (expiredFailures expiredSuccesses : Z).

Definition step (o : Options) (s : State) (i : Input) : State :=
  match i with
  | Outcome now ok => record o now ok s
  | Query now => snd (allow o now s)
  | Slide f t => slide f t s
  end.

Definition run (o : Options) (s : State) (inputs : list Input) : State :=
  fold_left (step o) inputs s.

(** Every state passed while reading [inputs] from the initial state was
    CLOSED. *)
Definition closedThroughout (o : Options) (inputs : list Input) : Prop :=
  forall k : nat, status (run o initial (take k inputs)) = CLOSED.

(** The two ratios the CLOSED rule compares, as rationals. *)
Definition failureThresholdRatio (o : Options) : QArith_base.Q :=
  QArith_base.Qmake (errorThresholdPercentage o) 100.

Definition failureRatio (s : State) : QArith_base.Q :=
  QArith_base.Qmake (rollingFailureCount s) (Z.to_pos (rollingTotalCount s)).

(** Both conditions of the CLOSED to OPEN transition hold in [s]. *)
Definition tripping (o : Options) (s : State) : Prop :=
  minimumVolume o <= rollingTotalCount s
  /\ 0 < rollingTotalCount s
  /\ QArith_base.Qle (failureThresholdRatio o) (failureRatio s).

End CircuitBreaker.

(** ** RestUtility, the variant guarded by a circuit breaker
    (the first class of src/unnamed/part_000) *)

Module BreakerRestUtility.
Section WithLibraries.

Variable isNetworkOrIdempotentRequestError : AxiosError -> bool.

(** The breaker's default minimum volume (the constructor does not set
    it). *)
Variable minimumVolume : Z.

(** The object state: one breaker for the whole utility. *)
Record RestUtility : Type := mkRestUtility {
  circuitBreaker : CircuitBreaker.State
}.

Definition options : CircuitBreaker.Options :=
  {| CircuitBreaker.timeout := 5000;
     CircuitBreaker.errorThresholdPercentage := 50;
     CircuitBreaker.resetTimeout := 10000;
     CircuitBreaker.minimumVolume := minimumVolume |}.

Definition constructor : RestUtility :=
  {| circuitBreaker := CircuitBreaker.initial |}.

Definition retryCondition (error : AxiosError) : bool :=
  isNetworkOrIdempotentRequestError error
  || match response error with
     | Some r => INTERNAL_SERVER_ERROR <=? status r
     | None => false
     end.

(** As in the other class: the value of the source's double for the retry
    numbers 0 to [maxExactRetryNumber]. *)
Definition retryDelay (retryCount : Z) : Z := 2 ^ retryCount * 1000.

Definition applyRetry (shouldRetry : bool) (retryCount : Z) (instance : AxiosInstance)
  : AxiosInstance :=
  if shouldRetry then
    axiosRetry instance (mkRetryConfig retryCount retryCondition retryDelay)
  else instance.

(** [makeRequest]: a new instance per call, created here, on which no
    interceptor was installed. *)
Definition makeRequest (work : Work) (config : Config) (w : World)
  : Result JsError string * World :=
  let axiosInstance := create config in
  match request work axiosInstance config w with
  | (Resolved response, w') => (Resolved (body response), w')
  | (Rejected error, w') => (Rejected (AxiosErr error), w')
  end.

(** [this.circuitBreaker.fire(config)], rethrowing what it rejects with. *)
Definition guarded (work : Work) (this : RestUtility) (config : Config) (w : World)
  : Result JsError string * RestUtility * World :=
  let '(r, s, w') :=
    CircuitBreaker.fire options (makeRequest work config) (circuitBreaker this) w in
  (r, {| circuitBreaker := s |}, w').

(** [get]: the instance that [applyRetry] configures is created in the
    argument position and referenced nowhere else. *)
Definition get (work : Work) (this : RestUtility) (baseURL endpoint : string)
    (headers : JsObject) (retry : bool) (retryCount timeout : Z) (w : World)
  : Result JsError string * RestUtility * World :=
  let config := {| method := "get"; baseURL := baseURL; url := endpoint; data := None;
                   headers := headers; Axios.timeout := timeout |} in
  let _ := applyRetry retry retryCount (create config) in
  guarded work this config w.

Definition post (work : Work) (this : RestUtility) (baseURL endpoint : string)
    (data headers : JsObject) (retry : bool) (retryCount timeout : Z) (w : World)
  : Result JsError string * RestUtility * World :=
  let config := {| method := "post"; baseURL := baseURL; url := endpoint;
                   Axios.data := Some data; headers := headers; Axios.timeout := timeout |} in
  let _ := applyRetry retry retryCount (create config) in
  guarded work this config w.

Definition put (work : Work) (this : RestUtility) (baseURL endpoint : string)
    (data headers : JsObject) (retry : bool) (retryCount timeout : Z) (w : World)
  : Result JsError string * RestUtility * World :=
  let config := {| method := "put"; baseURL := baseURL; url := endpoint;
                   Axios.data := Some data; headers := headers; Axios.timeout := timeout |} in
  let _ := applyRetry retry retryCount (create config) in
  guarded work this config w.

End WithLibraries.
End BreakerRestUtility.

(** ** OrderService: the critical section under the distributed lock
    (src/distributed-locking/order.service.ts) *)

Module OrderService.

(** The lock object redlock resolves [acquire] with. *)
Record Lock : Type := mkLock {
  resources : list string;
  value : string;
  expiration : Z
}.

(** The calls [createOrder] makes on its collaborators, in order. *)
Inductive Event : Type :=
| LoggerLog (message : string)
| LoggerError (message : string) (err : JsError)
| RedlockAcquire (keys : list string) (duration : Z)
| SetTimeout (ms : Z)
| LockRelease (lock : Lock).

(** The collaborators: how [redlock.acquire] settles, and whether any
    other call throws, both possibly depending on what happened before. *)
Record Env : Type := mkEnv {
  acquired : list Event -> list string -> Z -> Result JsError Lock;
  failure : list Event -> Event -> option JsError
}.

(** The calls made so far and the local variable [lock] of [createOrder]
    ([None] is [undefined]). *)
Record Frame : Type := mkFrame {
  trace : list Event;
  lock : option Lock
}.

Definition fresh : Frame := {| trace := []; lock := None |}.

(** Asynchronous code with exceptions, run against an environment. *)
Definition M (A : Type) : Type := Env -> Frame -> Result JsError A * Frame.

Definition ret {A} (a : A) : M A := fun _ f => (Resolved a, f).

Definition throw {A} (e : JsError) : M A := fun _ f => (Rejected e, f).

Definition bind {A B} (m : M A) (k : A -> M B) : M B :=
  fun env f =>
    match m env f with
    | (Resolved a, f1) => k a env f1
    | (Rejected e, f1) => (Rejected e, f1)
    end.

#[global] Instance M_ret : MRet M := @ret.
#[global] Instance M_bind : MBind M := fun A B k m => bind m k.

Definition logged (ev : Event) (f : Frame) : Frame :=
  {| trace := trace f ++ [ev]; lock := lock f |}.

(** A call that returns nothing, and may throw. *)
Definition perform (ev : Event) : M unit :=
  fun env f =>
    match failure env (trace f) ev with
    | None => (Resolved tt, logged ev f)
    | Some e => (Rejected e, logged ev f)
    end.

Definition redlock_acquire (keys : list string) (duration : Z) : M Lock :=
  fun env f =>
    (acquired env (trace f) keys duration, logged (RedlockAcquire keys duration) f).

Definition assignLock (l : Lock) : M unit :=
  fun _ f => (Resolved tt, {| trace := trace f; lock := Some l |}).

Definition readLock : M (option Lock) := fun _ f => (Resolved (lock f), f).

(** [try { body } catch (err) { handler } finally { finalizer }]: the
    finalizer always runs; when it throws, its exception is the one that
    leaves the statement. *)
Definition tryCatchFinally {A} (body : M A) (handler : JsError -> M A) (finalizer : M unit)
  : M A :=
  fun env f =>
    let '(r1, f1) := match body env f with
                     | (Resolved a, f') => (Resolved a, f')
                     | (Rejected e, f') => handler e env f'
                     end in
    match finalizer env f1 with
    | (Resolved _, f2) => (r1, f2)
    | (Rejected e, f2) => (Rejected e, f2)
    end.

Definition processOrder (orderId : string) : M unit :=
  perform (LoggerLog ("Processing order: " +:+ orderId)) ;;
  perform (SetTimeout 5000) ;;
  perform (LoggerLog ("Order processing completed: " +:+ orderId)).

(** The [try] block of [createOrder]. *)
Definition critical (orderId : string) : M unit :=
  let lockKey := "order_lock:" +:+ orderId in
  l ← redlock_acquire [lockKey] 30000;
  assignLock l ;;
  perform (LoggerLog ("Acquired lock for order: " +:+ orderId)) ;;
  processOrder orderId ;;
  perform (LoggerLog ("Order created successfully: " +:+ orderId)).

(** The [catch] block. *)
Definition handler (orderId : string) (err : JsError) : M unit :=
  perform (LoggerError ("Failed to create order " +:+ orderId +:+ ":") err) ;;
  throw (Error "Could not create order").

(** The [finally] block. *)
Definition finalizer (orderId : string) : M unit :=
  l ← readLock;
  match l with
  | Some lock =>
      perform (LockRelease lock) ;;
      perform (LoggerLog ("Released lock for order: " +:+ orderId))
  | None => ret tt
  end.

Definition createOrder (orderId : string) : M unit :=
  tryCatchFinally (critical orderId) (handler orderId) (finalizer orderId).

(** Logging and [release] never throw in [env]. *)
Definition quiet (env : Env) : Prop :=
  forall t ev,
    match ev with
    | LoggerLog _ | LoggerError _ _ | LockRelease _ => failure env t ev = None
    | _ => True
    end.

Definition isRelease (ev : Event) : bool :=
  match ev with LockRelease _ => true | _ => false end.

(** The [release] calls among the calls made. *)
Definition releases (f : Frame) : list Event := List.filter isRelease (trace f).

End OrderService.

(** ** The quorum lock manager *)

Module LockManager.

Record LockRecord : Type := mkLockRecord {
  ownerToken : string;
  expiresAt : Z
}.

(** One lock authority: its records by resource key, and whether it
    answers within its timeout during this attempt. *)
Record Authority : Type := mkAuthority {
  records : gmap string LockRecord;
  answers : bool
}.

Record Lease : Type := mkLease {
  resourceKey : string;
  leaseToken : string;
  validUntil : Z;
  quorumAchieved : Z
}.

Inductive AcquireResult : Type :=
| Acquired (lease : Lease)
| QuorumNotReached.

(** Modelled from the spec: [tryAcquire] of the Lock Authority Client
    (section 4.4): the record is created only if none exists or the
    existing one has expired; an authority that times out accepts nothing.
    The redlock package and the Redis node are not under src/. *)
Definition tryAcquire (now : Z) (key token : string) (ttl : Z) (a : Authority)
  : bool * Authority :=
  if answers a then
    let grant := {| records := <[key := {| ownerToken := token; expiresAt := now + ttl |}]> (records a);
                    answers := true |} in
    match records a !! key with
    | Some r => if expiresAt r <=? now then (true, grant) else (false, a)
    | None => (true, grant)
    end
  else (false, a).

(** Modelled from the spec: [release] of the Lock Authority Client
    (section 4.4), compare-then-delete by owner token; redlock is not
    under src/. *)
Definition release (key token : string) (a : Authority) : bool * Authority :=
  if answers a then
    match records a !! key with
    | Some r =>
        if bool_decide (ownerToken r = token) then
          (true, {| records := delete key (records a); answers := true |})
        else (false, a)
    | None => (false, a)
    end
  else (false, a).

(** Modelled from the spec: the majority of [n] authorities (glossary):
    [floor(n/2) + 1]. *)
Definition majority (n : Z) : Z := n / 2 + 1.

(** Modelled from the spec: [quorumAchieved] (section 4.5, step 3), the
    number of authorities that returned true; redlock is not under src/. *)
Definition accepted (settled : list (bool * Authority)) : Z :=
  Z.of_nat (length (List.filter fst settled)).

(** What one [acquire] leaves behind: its result, the authorities, and the
    authorities (by position) that were sent a [release]. *)
Record Attempt : Type := mkAttempt {
  result : AcquireResult;
  authorities : list Authority;
  releasedAt : list nat
}.

(** Modelled from the spec: [acquire] of the Distributed Lock Manager
    (section 4.5, steps 2 to 6).  [elapsed] is the time the fan-out took to
    settle, [ownerToken] the fresh token of step 1.  redlock is not under
    src/. *)
Definition acquire (clockDriftMargin : Z) (nodes : list Authority)
    (resourceKey ownerToken : string) (ttl startTime elapsed : Z) : Attempt :=
  let settled := tryAcquire startTime resourceKey ownerToken ttl <$> nodes in
  let quorumAchieved := accepted settled in
  let remaining := ttl - elapsed - clockDriftMargin in
  if (majority (Z.of_nat (length nodes)) <=? quorumAchieved) && (0 <? remaining) then
    {| result := Acquired {| resourceKey := resourceKey; leaseToken := ownerToken;
                             validUntil := startTime + remaining;
                             quorumAchieved := quorumAchieved |};
       authorities := snd <$> settled;
       releasedAt := [] |}
  else
    {| result := QuorumNotReached;
       authorities :=
         (fun s : bool * Authority =>
            if fst s then snd (release resourceKey ownerToken (snd s)) else snd s)
           <$> settled;
       releasedAt :=
         omap (fun p : nat * (bool * Authority) => if fst (snd p) then Some (fst p) else None)
              (imap (fun i s => (i, s)) settled) |}.

Definition isAcquired (a : Attempt) : bool :=
  match result a with Acquired _ => true | QuorumNotReached => false end.

End LockManager.

From Stdlib Require Import Ascii.
From stdpp Require Import pretty.

Local Open Scope string_scope.
Local Open Scope list_scope.
Local Open Scope Z_scope.

(** ** RedisService and the construction of OrderService
    (src/distributed-locking/redis.service.ts, order.service.ts) *)

Module RedisService.

(** An ioredis client as the service leaves it: where it connects to, the
    events it has listeners for, and whether [quit] has closed it. *)
Record RedisClient : Type := mkClient {
  host : string;
  port : Z;
  listeners : list string;
  closed : bool
}.

(** The clients created so far (an object reference is a position in this
    list) and the lines the service's logger wrote. *)
Record Heap : Type := mkHeap {
  clients : list RedisClient;
  logged : list string
}.

(** The object state: [redisClient] is [undefined] until [onModuleInit]. *)
Record RedisService : Type := mkRedisService {
  redisClient : option nat
}.

Definition constructor : RedisService := {| redisClient := None |}.

Definition onModuleInit (this : RedisService) (h : Heap) : RedisService * Heap :=
  ({| redisClient := Some (length (clients h)) |},
   {| clients := clients h ++ [{| host := "localhost"; port := 6379;
                                  listeners := ["connect"; "error"]; closed := false |}];
      logged := logged h |}).

Definition getClient (this : RedisService) : option nat := redisClient this.

Section WithIoredis.

(** ioredis' [quit]: whether it rejects for the client at a position. *)
Variable quitError : Heap -> nat -> option JsError.

Definition close (c : RedisClient) : RedisClient :=
  {| host := host c; port := port c; listeners := listeners c; closed := true |}.

(** [await this.redisClient.quit()], then the log line; calling a method of
    [undefined] throws a TypeError. *)
Definition onModuleDestroy (this : RedisService) (h : Heap) : Result JsError unit * Heap :=
  match redisClient this with
  | None =>
      (Rejected (RuntimeError "TypeError: Cannot read properties of undefined"), h)
  | Some ref =>
      match quitError h ref with
      | Some e => (Rejected e, h)
      | None =>
          (Resolved tt,
           {| clients := alter close ref (clients h);
              logged := logged h ++ ["Disconnected from Redis"] |})
      end
  end.

End WithIoredis.

(** The Redlock object [OrderService]'s constructor builds: the client
    references in the array literal, the settings, the events listened to. *)
Record Redlock : Type := mkRedlock {
  servers : list (option nat);
  retryCount : Z;
  retryDelay : Z;
  retryJitter : Z;
  handlers : list string
}.

(** [OrderService]'s constructor: [getClient()] is evaluated here, once. *)
Definition OrderService_constructor (redisService : RedisService) : Redlock :=
  {| servers := [getClient redisService];
     retryCount := 10; retryDelay := 200; retryJitter := 200;
     handlers := ["clientError"] |}.

End RedisService.

(** ** Parameter binding (src/dynamic-parameter-binding/dynamic.binding.ts) *)

Module DynamicBinding.

(** JSON-shaped values, with [undefined] and the built-in objects and
    functions an inherited member can be.  Numbers are the integers. *)
#[warnings="-register-all"]
Inductive Value : Type :=
| VUndefined
| VNull
| VBool (b : bool)
| VNum (n : Z)
| VStr (s : string)
| VArr (items : list Value)
| VObj (fields : gmap string Value)
| VNative (name : string).

Definition truthy (v : Value) : bool :=
  match v with
  | VUndefined | VNull => false
  | VBool b => b
  | VNum n => negb (Z.eqb n 0)
  | VStr s => negb (bool_decide (s = ""))
  | VArr _ | VObj _ | VNative _ => true
  end.

(** [a === b] between a member of a response item and a value that came out
    of [JSON.parse]: primitives compare by value, objects by identity, and
    the two never are the same object. *)
Definition strictEq (a b : Value) : bool :=
  match a, b with
  | VUndefined, VUndefined => true
  | VNull, VNull => true
  | VBool x, VBool y => bool_decide (x = y)
  | VNum x, VNum y => Z.eqb x y
  | VStr x, VStr y => bool_decide (x = y)
  | _, _ => false
  end.

(** [s.split(sep)] for a one-character separator. *)
Fixpoint split (sep : ascii) (s : string) : list string :=
  match s with
  | EmptyString => [EmptyString]
  | String c s' =>
      if bool_decide (c = sep) then EmptyString :: split sep s'
      else match split sep s' with
           | part :: parts => String c part :: parts
           | [] => [String c EmptyString]
           end
  end.

(** The element of an array that the property name [k] denotes: [k] has to
    be the decimal writing of an index. *)
Definition element (items : list Value) (k : string) : option Value :=
  match list_find (fun i : nat => pretty i = k) (seq 0 (length items)) with
  | Some (_, i) => items !! i
  | None => None
  end.

(** Templates with placeholders ([requestBody], [queryParams]). *)
Definition Template : Type := list (string * string).

Record Filter : Type := mkFilter {
  key : string;
  value : string
}.

Record ParameterConfig : Type := mkParameterConfig {
  source : string;
  path : option string;
  hostname : option string;
  method : option string;
  endpoint : option string;
  requestBody : option Template;
  queryParams : option Template;
  responsePath : option string;
  filter : option Filter
}.

(** One call of the global axios: the verb, the URL, and the query
    parameters or the body. *)
Record Call : Type := mkCall {
  verb : string;
  url : string;
  payload : Value
}.

(** What the module does to the outside: the HTTP calls made and the
    [console.error] entries written, in order. *)
Record Net : Type := mkNet {
  calls : list Call;
  consoleErrors : list (string * JsError)
}.

Definition quietNet : Net := {| calls := []; consoleErrors := [] |}.

(** A template literal's rendering of an optional string. *)
Definition render (s : option string) : string :=
  match s with Some x => x | None => "undefined" end.

Definition typeError : JsError := RuntimeError "TypeError".

Section WithEngine.

(** What a property read finds beyond own data properties: members
    inherited from the prototypes, and the members of strings, numbers and
    booleans; [VUndefined] when there is none. *)
Variable builtin : Value -> string -> Value.

(** Whether [Object.prototype] has a member of that name. *)
Variable inheritedName : string -> bool.

(** The pipeline of [resolveDynamicData] on a template that is present:
    [JSON.stringify], the replacement of the [$payload] placeholders in the
    text, [JSON.parse] (which may throw). *)
Variable substitute : Template -> Value -> Result JsError Value.

(** The remote ends: what [response.data] is, or what axios rejects with,
    given the calls made before. *)
Variable answer : list Call -> Call -> Result JsError Value.

(** [config.parameters], read from config.json when the module loads. *)
Variable parameters : gmap string ParameterConfig.

(** [v[k]] for a [v] that is neither [null] nor [undefined]. *)
Definition access (v : Value) (k : string) : Value :=
  match v with
  | VObj fields =>
      match fields !! k with
      | Some x => x
      | None => builtin v k
      end
  | VArr items =>
      match element items k with
      | Some x => x
      | None => if bool_decide (k = "length") then VNum (Z.of_nat (length items))
                else builtin v k
      end
  | _ => builtin v k
  end.

(** [v[k]]; [None] is the TypeError of reading a property of [null] or
    [undefined]. *)
Definition getProp (v : Value) (k : string) : option Value :=
  match v with
  | VUndefined | VNull => None
  | _ => Some (access v k)
  end.

(** The reducer [(acc, part) => acc && acc[part]]. *)
Definition descend (acc : Value) (part : string) : Value :=
  if truthy acc then access acc part else acc.

Definition getFromPayload (path : string) (obj : Value) : Value :=
  fold_left descend (split "."%char path) obj.

Definition resolveDynamicData (dynamicDataConfig : option Template) (messagePayload : Value)
  : Result JsError Value :=
  match dynamicDataConfig with
  | None => Resolved (VObj ∅)
  | Some template => substitute template messagePayload
  end.

(** [responseData.find((item) => item[filterKey] === filterValue)]. *)
Fixpoint find (filterKey : string) (filterValue : Value) (items : list Value)
  : Result JsError Value :=
  match items with
  | [] => Resolved VUndefined
  | item :: rest =>
      match getProp item filterKey with
      | None => Rejected typeError
      | Some x => if strictEq x filterValue then Resolved item
                  else find filterKey filterValue rest
      end
  end.

(** [await axios.get(url, { params })] and [await axios.post(url, body)]. *)
Definition fetch (c : Call) (n : Net) : Result JsError Value * Net :=
  (answer (calls n) c, {| calls := calls n ++ [c]; consoleErrors := consoleErrors n |}).

(** The [try] block of [getFromAPI]. *)
Definition fetchValue (paramConfig : ParameterConfig) (messagePayload : Value) (n : Net)
  : Result JsError Value * Net :=
  let url := render (hostname paramConfig) +:+ render (endpoint paramConfig) in
  let '(response, n1) :=
    if bool_decide (method paramConfig = Some "GET") then
      match resolveDynamicData (queryParams paramConfig) messagePayload with
      | Rejected e => (Rejected e, n)
      | Resolved queryParams => fetch {| verb := "get"; url := url; payload := queryParams |} n
      end
    else if bool_decide (method paramConfig = Some "POST") then
      match resolveDynamicData (requestBody paramConfig) messagePayload with
      | Rejected e => (Rejected e, n)
      | Resolved requestBody => fetch {| verb := "post"; url := url; payload := requestBody |} n
      end
    else (Rejected (Error ("Unsupported HTTP method: " +:+ render (method paramConfig))), n) in
  match response with
  | Rejected e => (Rejected e, n1)
  | Resolved data =>
      let responseData :=
        match responsePath paramConfig with
        | Some p => if bool_decide (p = "") then data else getFromPayload p data
        | None => data
        end in
      match responseData, filter paramConfig with
      | VArr items, Some f =>
          match resolveDynamicData (Some [("value", value f)]) messagePayload with
          | Rejected e => (Rejected e, n1)
          | Resolved resolved =>
              match getProp resolved "value" with
              | None => (Rejected typeError, n1)
              | Some filterValue => (find (key f) filterValue items, n1)
              end
          end
      | _, _ => (Resolved responseData, n1)
      end
  end.

(** [getFromAPI]: the [catch] block logs and rethrows. *)
Definition getFromAPI (paramConfig : ParameterConfig) (messagePayload : Value) (n : Net)
  : Result JsError Value * Net :=
  match fetchValue paramConfig messagePayload n with
  | (Rejected error, n1) =>
      (Rejected error,
       {| calls := calls n1;
          consoleErrors :=
            consoleErrors n1
            ++ [("Error fetching external value for " +:+ render (endpoint paramConfig) +:+ ":",
                 error)] |})
  | (Resolved v, n1) => (Resolved v, n1)
  end.

(** [getParameterValue].  A name that [config.parameters] only inherits
    gives a truthy object without a [source]; [path!] is not checked, and
    [undefined.split] throws. *)
Definition getParameterValue (paramName : string) (messagePayload : Value) (n : Net)
  : Result JsError Value * Net :=
  match parameters !! paramName with
  | None =>
      if inheritedName paramName then
        (Rejected (Error "Unsupported source type: undefined"), n)
      else
        (Rejected (Error ("Parameter " +:+ paramName +:+ " not found in configuration")), n)
  | Some paramConfig =>
      if bool_decide (source paramConfig = "payload") then
        match path paramConfig with
        | Some p => (Resolved (getFromPayload p messagePayload), n)
        | None => (Rejected typeError, n)
        end
      else if bool_decide (source paramConfig = "api") then
        getFromAPI paramConfig messagePayload n
      else
        (Rejected (Error ("Unsupported source type: " +:+ source paramConfig)), n)
  end.

End WithEngine.

End DynamicBinding.

(** ** Vocabulary of the design *)

Module Design.





(** What a call with the breaker in front sends: exactly its request, and
    without a pause, when the breaker lets it through; nothing at all, the
    call failing with [CircuitOpenError], when the breaker refuses it. *)
Definition sendsIfAllowed (allowed : bool) (cfg : Config) (w : World)
    (out : Result JsError string * BreakerRestUtility.RestUtility * World) : Prop :=
  if allowed then sent (snd out) = sent w ++ [cfg] /\ sleeps (snd out) = sleeps w
  else fst (fst out) = Rejected CircuitOpenError /\ snd out = w.

(** Replies of a work function. *)
Definition serverFailure (rep : Reply) : Prop :=
  exists r, wire rep = Answer r /\ 500 <= status r.

Definition success (rep : Reply) (v : string) : Prop :=
  exists r, wire rep = Answer r /\ validateStatus (status r) = true /\ body r = v.

(** The reply settles before a request timeout of [t] ms ([0]: none). *)
Definition inTime (t : Z) (rep : Reply) : Prop := t <= 0 \/ took rep < t.

(** From its [k]-th request on, the work function fails twice with a
    server-class error and then succeeds with [v]. *)
Definition failsTwiceThenSucceeds (work : Work) (k : nat) (v : string) : Prop :=
  forall cfg,
    serverFailure (work k cfg) /\ serverFailure (work (S k) cfg)
    /\ success (work (S (S k)) cfg) v.

Definition total (delays : list Z) : Z := foldr Z.add 0 delays.

(** The end-to-end property of section 8 for a call started in world [w]
    that settled with [r] in world [w']: the success value, after exactly
    two retries, with pauses of [base + 2 * base] in all. *)
Definition succeedsAfterTwoRetries {E} (base : Z) (v : string) (w : World)
    (r : Result E string) (w' : World) : Prop :=
  r = Resolved v
  /\ length (sent w') = (length (sent w) + 3)%nat
  /\ total (drop (length (sleeps w)) (sleeps w')) = base + 2 * base.

(** The request timeout [t] is off, or longer than the three exchanges
    and the pauses between them: no timeout can fire, whether the transport
    counts it per attempt or over the whole call. *)
Definition unhurried (work : Work) (k : nat) (t pauses : Z) : Prop :=
  t = 0
  \/ forall cfg,
       0 <= took (work k cfg) /\ 0 <= took (work (S k) cfg)
       /\ 0 <= took (work (S (S k)) cfg)
       /\ took (work k cfg) + took (work (S k) cfg) + took (work (S (S k)) cfg) + pauses < t.

(** The status a call made in world [w] finds the breaker in. *)
Definition observedStatus (minimumVolume : Z) (this : BreakerRestUtility.RestUtility)
    (w : World) : CircuitBreaker.Status :=
  CircuitBreaker.status
    (CircuitBreaker.refresh (BreakerRestUtility.options minimumVolume) (clock w)
                            (BreakerRestUtility.circuitBreaker this)).

(** Breakers kept per endpoint: the outcome of a call to one endpoint
    leaves the status that calls to another endpoint observe as it was. *)
Definition endpointsIndependent (isNet : AxiosError -> bool) (minimumVolume : Z)
    (work : Work) : Prop :=
  forall this baseURL a b headers retry retryCount timeout w,
    a <> b ->
    let out := BreakerRestUtility.get isNet minimumVolume work this baseURL a headers
                                      retry retryCount timeout w in
    observedStatus minimumVolume (snd (fst out)) (snd out)
    = observedStatus minimumVolume this (snd out).

(** The error taxonomy of section 7. *)
Inductive ErrorClass : Type :=
| TransientClass | PermanentClass | CircuitOpenClass | QuorumNotReachedClass
| LeaseExpiredClass | Unclassified.

Definition classOf (e : JsError) : ErrorClass :=
  match e with
  | AxiosErr a =>
      match response a with
      | None => TransientClass
      | Some r => if 500 <=? status r then TransientClass else PermanentClass
      end
  | CircuitOpenError => CircuitOpenClass
  | TimeoutError => TransientClass
  | QuorumNotReachedError => QuorumNotReachedClass
  | LockReleaseError => LeaseExpiredClass
  | RuntimeError _ => Unclassified
  | Error _ => Unclassified
  end.

(** What [createOrder] throws tells the class of the failure behind it:
    some reading of the thrown error gives, for every failure [cause] of
    the critical section, the class of [cause]. *)
Definition surfacesClassification : Prop :=
  exists classify : JsError -> ErrorClass,
    forall env orderId cause,
      fst (OrderService.critical orderId env OrderService.fresh) = Rejected cause ->
      exists e,
        fst (OrderService.createOrder orderId env OrderService.fresh) = Rejected e
        /\ classify e = classOf cause.

End Design.
Import Design.

(** ** Vocabulary of the further properties *)

Module Behaviour.




(** Between [w] and [w'] at most one request, [cfg], was sent, and there
    was no pause. *)
Definition sentAtMostOnce (cfg : Config) (w w' : World) : Prop :=
  (sent w' = sent w \/ sent w' = sent w ++ [cfg]) /\ sleeps w' = sleeps w.

(** The events of the protected work of [createOrder], and its error log
    entries. *)
Definition isWork (ev : OrderService.Event) : bool :=
  match ev with OrderService.SetTimeout _ => true | _ => false end.

Definition isErrorLog (ev : OrderService.Event) : bool :=
  match ev with OrderService.LoggerError _ _ => true | _ => false end.

(** The calls of a run of [createOrder] in which nothing throws. *)
Definition untroubled (orderId : string) (l : OrderService.Lock) : list OrderService.Event :=
  [OrderService.RedlockAcquire ["order_lock:" +:+ orderId] 30000;
   OrderService.LoggerLog ("Acquired lock for order: " +:+ orderId);
   OrderService.LoggerLog ("Processing order: " +:+ orderId);
   OrderService.SetTimeout 5000;
   OrderService.LoggerLog ("Order processing completed: " +:+ orderId);
   OrderService.LoggerLog ("Order created successfully: " +:+ orderId);
   OrderService.LockRelease l;
   OrderService.LoggerLog ("Released lock for order: " +:+ orderId)].

End Behaviour.
Import Behaviour.

(** ** Concrete inputs *)

Module Examples.

(** A remote end that answers 500, then 503, then 200. *)
Definition flaky : Work :=
  fun k _ =>
    match k with
    | O => {| took := 20; wire := Answer {| status := 500; body := "down" |} |}
    | S O => {| took := 20; wire := Answer {| status := 503; body := "busy" |} |}
    | _ => {| took := 20; wire := Answer {| status := 200; body := "ok" |} |}
    end.

(** A remote end whose [/a] always answers 500 and whose other endpoints
    answer 200. *)
Definition split : Work :=
  fun _ cfg =>
    if bool_decide (url cfg = "/a")
    then {| took := 20; wire := Answer {| status := 500; body := "down" |} |}
    else {| took := 20; wire := Answer {| status := 200; body := "ok" |} |}.

Definition notFound : AxiosError :=
  {| code := Some "ERR_BAD_REQUEST";
     response := Some {| status := 404; body := "no such thing" |};
     config := {| method := "get"; baseURL := "https://api.example.com"; url := "/data";
                  data := None; headers := []; timeout := 5000 |} |}.

Definition api : string := "https://api.example.com".


(** Redlock cannot reach its quorum. *)
Definition noQuorum : OrderService.Env :=
  {| OrderService.acquired := fun _ _ _ => Rejected QuorumNotReachedError;
     OrderService.failure := fun _ _ => None |}.

Definition unavailable : AxiosError :=
  {| code := Some "ERR_BAD_RESPONSE";
     response := Some {| status := 503; body := "busy" |};
     config := {| method := "post"; baseURL := "https://api.example.com"; url := "/orders";
                  data := Some []; headers := []; timeout := 5000 |} |}.

(** The lock is granted, and the work on the order fails with a 503. *)
Definition workFails : OrderService.Env :=
  {| OrderService.acquired :=
       fun _ keys _ => Resolved {| OrderService.resources := keys;
                                   OrderService.value := "5f1c";
                                   OrderService.expiration := 30000 |};
     OrderService.failure :=
       fun _ ev => match ev with
                   | OrderService.SetTimeout _ => Some (AxiosErr unavailable)
                   | _ => None
                   end |}.

(** Lock authorities: one with no record, one that does not answer, one
    holding an unexpired record of another owner. *)
Definition free : LockManager.Authority :=
  {| LockManager.records := ∅; LockManager.answers := true |}.

Definition down : LockManager.Authority :=
  {| LockManager.records := ∅; LockManager.answers := false |}.

Definition held : LockManager.Authority :=
  {| LockManager.records :=
       {[ "order_lock:42" := {| LockManager.ownerToken := "a9e0";
                                LockManager.expiresAt := 90000 |} ]};
     LockManager.answers := true |}.

(** A utility whose breaker opened at time 0. *)
Definition opened : BreakerRestUtility.RestUtility :=
  {| BreakerRestUtility.circuitBreaker :=
       {| CircuitBreaker.status := CircuitBreaker.OPEN;
          CircuitBreaker.rollingFailureCount := 1;
          CircuitBreaker.rollingTotalCount := 1;
          CircuitBreaker.openedAt := 0;
          CircuitBreaker.trialInFlight := false |} |}.

End Examples.

(** ** Vocabulary of paths and lookups *)

Module Paths.

(** A property name without a dot: a path of one step. *)
Definition noDot (s : string) : bool :=
  forallb (fun c => negb (bool_decide (c = "."%char))) (String.list_ascii_of_string s).

(** Decimal digits, and strings made of them. *)
Definition isDigit (c : ascii) : bool :=
  (N.leb 48 (N_of_ascii c)) && (N.leb (N_of_ascii c) 57).

Definition allDigits (s : string) : bool :=
  forallb isDigit (String.list_ascii_of_string s).

(** [find] went through [items] without reading a property of [null] or
    [undefined], and no item had the member [k] strictly equal to [fv]. *)
Definition noneMatches (builtin : DynamicBinding.Value -> string -> DynamicBinding.Value)
    (k : string) (fv : DynamicBinding.Value) (items : list DynamicBinding.Value) : Prop :=
  forall item, item ∈ items ->
    exists x, DynamicBinding.getProp builtin item k = Some x
              /\ DynamicBinding.strictEq x fv = false.

(** The calls one parameter fetch can make: none, or the one GET, or the
    one POST, to [hostname] followed by [endpoint], with the resolved query
    parameters or body. *)
Definition called
    (substitute : DynamicBinding.Template -> DynamicBinding.Value
                  -> Result JsError DynamicBinding.Value)
    (pc : DynamicBinding.ParameterConfig) (messagePayload : DynamicBinding.Value)
    (cs : list DynamicBinding.Call) : Prop :=
  cs = []
  \/ (exists q,
        DynamicBinding.method pc = Some "GET"
        /\ DynamicBinding.resolveDynamicData substitute (DynamicBinding.queryParams pc)
                                             messagePayload = Resolved q
        /\ cs = [DynamicBinding.mkCall "get"
                   (DynamicBinding.render (DynamicBinding.hostname pc)
                    +:+ DynamicBinding.render (DynamicBinding.endpoint pc)) q])
  \/ (exists b,
        DynamicBinding.method pc = Some "POST"
        /\ DynamicBinding.resolveDynamicData substitute (DynamicBinding.requestBody pc)
                                             messagePayload = Resolved b
        /\ cs = [DynamicBinding.mkCall "post"
                   (DynamicBinding.render (DynamicBinding.hostname pc)
                    +:+ DynamicBinding.render (DynamicBinding.endpoint pc)) b]).

(** What a run of the binding module added to the calls and to the error
    log. *)
Definition newCalls (n n' : DynamicBinding.Net) (cs : list DynamicBinding.Call) : Prop :=
  DynamicBinding.calls n' = DynamicBinding.calls n ++ cs.

Definition newErrors (n n' : DynamicBinding.Net) (es : list (string * JsError)) : Prop :=
  DynamicBinding.consoleErrors n' = DynamicBinding.consoleErrors n ++ es.

End Paths.
Import Paths.

(** ** Further concrete inputs *)

Module Scenarios.


Definition missing : Work :=
  fun _ _ => {| took := 20; wire := Answer {| status := 404; body := "no such thing" |} |}.

(** Collaborators of [createOrder]: one with which nothing throws, one whose
    [release] throws. *)
Definition granted (keys : list string) : OrderService.Lock :=
  {| OrderService.resources := keys; OrderService.value := "5f1c";
     OrderService.expiration := 30000 |}.

Definition calm : OrderService.Env :=
  {| OrderService.acquired := fun _ keys _ => Resolved (granted keys);
     OrderService.failure := fun _ _ => None |}.

Definition releaseFails : OrderService.Env :=
  {| OrderService.acquired := fun _ keys _ => Resolved (granted keys);
     OrderService.failure :=
       fun _ ev => match ev with
                   | OrderService.LockRelease _ => Some LockReleaseError
                   | _ => None
                   end |}.

(** The members every object inherits from [Object.prototype], and an
    engine that knows only those. *)
Definition objectMembers : list string :=
  ["constructor"; "__proto__"; "hasOwnProperty"; "isPrototypeOf"; "propertyIsEnumerable";
   "toLocaleString"; "toString"; "valueOf"; "__defineGetter__"; "__defineSetter__";
   "__lookupGetter__"; "__lookupSetter__"].

Definition inherited (k : string) : bool := bool_decide (k ∈ objectMembers).

Definition prototypes (v : DynamicBinding.Value) (k : string) : DynamicBinding.Value :=
  if inherited k then DynamicBinding.VNative k else DynamicBinding.VUndefined.

(** The [messagePayload] of the example at the end of dynamic.binding.ts. *)
Definition messagePayload : DynamicBinding.Value :=
  DynamicBinding.VObj
    {[ "order" :=
         DynamicBinding.VObj
           {[ "id" := DynamicBinding.VNum 1234;
              "details" :=
                DynamicBinding.VObj
                  {[ "amount" := DynamicBinding.VNum 250;
                     "currency" := DynamicBinding.VStr "USD";
                     "itemId" := DynamicBinding.VStr "item-002" ]} ]};
       "customer" := DynamicBinding.VObj {[ "id" := DynamicBinding.VStr "cust-001" ]};
       "product" := DynamicBinding.VObj {[ "id" := DynamicBinding.VStr "prod-001" ]} ]}.

(** A parameter fetched with a lower-case method name. *)
Definition lowerCaseGet : DynamicBinding.ParameterConfig :=
  {| DynamicBinding.source := "api";
     DynamicBinding.path := None;
     DynamicBinding.hostname := Some "https://api.example.com";
     DynamicBinding.method := Some "get";
     DynamicBinding.endpoint := Some "/items";
     DynamicBinding.requestBody := None;
     DynamicBinding.queryParams := None;
     DynamicBinding.responsePath := None;
     DynamicBinding.filter := None |}.

(** A parameter with a filter, and a remote end that answers its GET with
    one object instead of an array. *)
Definition filteredItem : DynamicBinding.ParameterConfig :=
  {| DynamicBinding.source := "api";
     DynamicBinding.path := None;
     DynamicBinding.hostname := Some "https://api.example.com";
     DynamicBinding.method := Some "GET";
     DynamicBinding.endpoint := Some "/items";
     DynamicBinding.requestBody := None;
     DynamicBinding.queryParams := None;
     DynamicBinding.responsePath := None;
     DynamicBinding.filter := Some (DynamicBinding.mkFilter "id" "$payload.product.id") |}.

Definition oneItem : DynamicBinding.Value :=
  DynamicBinding.VObj {[ "id" := DynamicBinding.VStr "prod-001" ]}.

End Scenarios.

(** * Properties *)

(** ** The retry configuration *)

Section RetryFacts.

Variable isNet : AxiosError -> bool.

Lemma retrying_resolved work o left n cfg w r w1 :
  dispatch work cfg w = (Resolved r, w1) ->
  retrying work o left n cfg w = (Resolved r, w1).
Proof. intros H. destruct left; simpl; rewrite H; reflexivity. Qed.

Lemma retrying_again work o left n cfg w e w1 :
  dispatch work cfg w = (Rejected e, w1) ->
  retryCondition o e = true ->
  retrying work o (S left) n cfg w
  = retrying work o left (n + 1) cfg (sleep (retryDelay o (n + 1)) w1).
Proof. intros H Hc. simpl. rewrite H, Hc. reflexivity. Qed.

Lemma retrying_gives_up work o n cfg w e w1 :
  dispatch work cfg w = (Rejected e, w1) ->
  retrying work o O n cfg w = (Rejected e, w1).
Proof. intros H. simpl. rewrite H. reflexivity. Qed.

(** What [dispatch] adds to the world, whatever the reply. *)
Lemma dispatch_sent work cfg w :
  sent (snd (dispatch work cfg w)) = sent w ++ [cfg]
  /\ sleeps (snd (dispatch work cfg w)) = sleeps w.
Proof.
  unfold dispatch.
  destruct ((0 <? timeout cfg) && (timeout cfg <=? took (work (length (sent w)) cfg)));
    [split; reflexivity|].
  destruct (wire (work (length (sent w)) cfg)) as [r|c]; [|split; reflexivity].
  destruct (validateStatus (status r)); split; reflexivity.
Qed.

End RetryFacts.

Section DispatchFacts.

Variables (work : Work) (cfg : Config) (w : World).

Let rep := work (length (sent w)) cfg.

Lemma dispatch_server_failure r :
  wire rep = Answer r -> 500 <= status r -> inTime (timeout cfg) rep ->
  dispatch work cfg w
  = (Rejected {| code := Some "ERR_BAD_RESPONSE"; response := Some r; config := cfg |},
     {| clock := clock w + took rep; sent := sent w ++ [cfg]; sleeps := sleeps w |}).
Proof.
  intros Hw Hs Ht. unfold dispatch. fold rep.
  replace ((0 <? timeout cfg) && (timeout cfg <=? took rep)) with false
    by (symmetry; apply andb_false_iff; destruct Ht; [left|right]; lia).
  rewrite Hw. unfold validateStatus.
  replace (status r <? 300) with false by (symmetry; apply Z.ltb_ge; lia).
  replace (status r <? 500) with false by (symmetry; apply Z.ltb_ge; lia).
  rewrite andb_false_r. reflexivity.
Qed.

Lemma dispatch_success r :
  wire rep = Answer r -> validateStatus (status r) = true -> inTime (timeout cfg) rep ->
  dispatch work cfg w
  = (Resolved r,
     {| clock := clock w + took rep; sent := sent w ++ [cfg]; sleeps := sleeps w |}).
Proof.
  intros Hw Hs Ht. unfold dispatch. fold rep.
  replace ((0 <? timeout cfg) && (timeout cfg <=? took rep)) with false
    by (symmetry; apply andb_false_iff; destruct Ht; [left|right]; lia).
  rewrite Hw, Hs. reflexivity.
Qed.

End DispatchFacts.

Lemma retryCondition_server isNet (cfg : Config) c r :
  500 <= status r ->
  RestUtility.retryCondition isNet {| code := c; response := Some r; config := cfg |} = true.
Proof.
  intros H. unfold RestUtility.retryCondition, INTERNAL_SERVER_ERROR. simpl.
  apply orb_true_iff. right. apply Z.leb_le. exact H.
Qed.

(** C4, as amended: for every retry number [n] from 1 to 1014 the delay
    that [applyRetry] configures is [1000 * 2^n] ms, that is
    [2000 * 2^(n-1)]: the unit 1000 ms is a literal of the code and the
    first delay is two units.  In this range the product is a finite double
    (from 1015 on it is not: [retryDelay_overflows_from_1015]).  Both
    variants of the class install this function as the [retryDelay] of the
    retry configuration. *)
Theorem retryDelay_is_1000_times_2_pow_n :
  forall n : Z,
    1 <= n <= maxExactRetryNumber ->
    RestUtility.retryDelay n = 1000 * 2 ^ n
    /\ RestUtility.retryDelay n = 2000 * 2 ^ (n - 1)
    /\ RestUtility.retryDelay n <= maxDouble
    /\ BreakerRestUtility.retryDelay n = RestUtility.retryDelay n
    /\ (forall isNet retryCount instance,
          AxiosRetry.retryDelay <$> interceptor (RestUtility.applyRetry isNet true retryCount instance)
          = Some RestUtility.retryDelay).
Proof.
  intros n [Hn Hmax]. unfold RestUtility.retryDelay, BreakerRestUtility.retryDelay.
  split; [lia|]. split; [|split; [|split; reflexivity]].
  - replace n with (n - 1 + 1) at 1 by lia.
    rewrite Z.pow_add_r by lia. lia.
  - pose proof (Z.pow_le_mono_r 2 n maxExactRetryNumber) as Hpow.
    assert (Htop : 2 ^ maxExactRetryNumber * 1000 <= maxDouble) by (vm_compute; discriminate).
    lia.
Qed.

Lemma retryDelay_is_1000_times_2_pow_n_witness :
  1 <= 3 <= maxExactRetryNumber /\ RestUtility.retryDelay 3 = 1000 * 2 ^ 3.
Proof.
  assert (H : 1 <= 3 <= maxExactRetryNumber) by (unfold maxExactRetryNumber; lia).
  split; [exact H|]. apply (retryDelay_is_1000_times_2_pow_n 3 H).
Defined.

(** Beyond the range: the integer for retry 1015 is larger than any finite
    double. *)
Lemma retryDelay_overflows_from_1015 :
  forall n : Z, maxExactRetryNumber < n -> maxDouble < RestUtility.retryDelay n.
Proof.
  intros n Hn. unfold RestUtility.retryDelay.
  pose proof (Z.pow_le_mono_r 2 (maxExactRetryNumber + 1) n) as Hpow.
  assert (Hlow : maxDouble < 2 ^ (maxExactRetryNumber + 1) * 1000) by (vm_compute; reflexivity).
  unfold maxExactRetryNumber in *. lia.
Qed.

(** C4, as written, fails at the first retry: the configured delay is
    2000 ms, where [base * 2^(n-1)] with [base = 1000] gives 1000 ms. *)
Lemma retryDelay_first_is_not_base :
  RestUtility.retryDelay 1 = 2000
  /\ RestUtility.retryDelay 1 <> 1000 * 2 ^ (1 - 1).
Proof. split; [reflexivity | discriminate]. Qed.



Lemma guarded_sendsIfAllowed mv work this cfg w :
  sendsIfAllowed
    (fst (CircuitBreaker.allow (BreakerRestUtility.options mv) (clock w)
                               (BreakerRestUtility.circuitBreaker this)))
    cfg w (BreakerRestUtility.guarded mv work this cfg w).
Proof.
  unfold sendsIfAllowed, BreakerRestUtility.guarded, CircuitBreaker.fire.
  destruct (CircuitBreaker.allow _ _ _) as [[|] s1]; simpl fst; [|split; reflexivity].
  unfold BreakerRestUtility.makeRequest, request, create. simpl interceptor. cbv iota.
  destruct (dispatch_sent work cfg w) as [Hs Hp].
  destruct (dispatch work cfg w) as [[r|e] w1]; simpl in Hs, Hp;
    destruct (_ && _); simpl; (split; assumption).
Qed.

(** C10, as amended: with the retry flag false (its default) [applyRetry]
    hands the instance back as it received it, in both classes.  In the
    class without the breaker, [get], [post] and [put] then send the request
    exactly once and never pause, whatever [retryCount] is.  In the class
    with the breaker they send it exactly once, without a pause, when the
    breaker lets the call through, and not at all when the breaker refuses
    it (the call failing with [CircuitOpenError]). *)
Theorem applyRetry_false_leaves_instance_and_sends_once :
  forall (isNet : AxiosError -> bool) (retryCount : Z) (instance : AxiosInstance)
         (work : Work) (baseURL endpoint : string) (data headers : JsObject)
         (timeout : Z) (w : World) (mv : Z) (this : BreakerRestUtility.RestUtility),
    default_retry = false
    /\ RestUtility.applyRetry isNet false retryCount instance = instance
    /\ BreakerRestUtility.applyRetry isNet false retryCount instance = instance
    /\ (let w' := snd (RestUtility.get isNet work baseURL endpoint headers false
                                       retryCount timeout w) in
        sent w' = sent w ++ [mkConfig "get" baseURL endpoint None headers timeout]
        /\ sleeps w' = sleeps w)
    /\ (let w' := snd (RestUtility.post isNet work baseURL endpoint data headers false
                                        retryCount timeout w) in
        sent w' = sent w ++ [mkConfig "post" baseURL endpoint (Some data) headers timeout]
        /\ sleeps w' = sleeps w)
    /\ (let w' := snd (RestUtility.put isNet work baseURL endpoint data headers false
                                       retryCount timeout w) in
        sent w' = sent w ++ [mkConfig "put" baseURL endpoint (Some data) headers timeout]
        /\ sleeps w' = sleeps w)
    /\ (let allowed := fst (CircuitBreaker.allow (BreakerRestUtility.options mv) (clock w)
                                                 (BreakerRestUtility.circuitBreaker this)) in
        sendsIfAllowed allowed (mkConfig "get" baseURL endpoint None headers timeout) w
          (BreakerRestUtility.get isNet mv work this baseURL endpoint headers false retryCount
                                  timeout w)
        /\ sendsIfAllowed allowed (mkConfig "post" baseURL endpoint (Some data) headers timeout)
             w (BreakerRestUtility.post isNet mv work this baseURL endpoint data headers false
                                        retryCount timeout w)
        /\ sendsIfAllowed allowed (mkConfig "put" baseURL endpoint (Some data) headers timeout)
             w (BreakerRestUtility.put isNet mv work this baseURL endpoint data headers false
                                       retryCount timeout w)).
Proof.
  intros isNet retryCount instance work baseURL endpoint data headers timeout w mv this.
  repeat (split; [reflexivity|]).
  split; [|split; [|split]].
  - unfold RestUtility.get, RestUtility.send, RestUtility.applyRetry,
      RestUtility.newInstance, request, create. simpl.
    match goal with
    | |- context [dispatch ?wk ?c ?x] =>
        pose proof (dispatch_sent wk c x) as [Hs Hp];
        destruct (dispatch wk c x) as [r w']; simpl in *; split; assumption
    end.
  - unfold RestUtility.post, RestUtility.send, RestUtility.applyRetry,
      RestUtility.newInstance, request, create. simpl.
    match goal with
    | |- context [dispatch ?wk ?c ?x] =>
        pose proof (dispatch_sent wk c x) as [Hs Hp];
        destruct (dispatch wk c x) as [r w']; simpl in *; split; assumption
    end.
  - unfold RestUtility.put, RestUtility.send, RestUtility.applyRetry,
      RestUtility.newInstance, request, create. simpl.
    match goal with
    | |- context [dispatch ?wk ?c ?x] =>
        pose proof (dispatch_sent wk c x) as [Hs Hp];
        destruct (dispatch wk c x) as [r w']; simpl in *; split; assumption
    end.
  - cbv zeta.
    unfold BreakerRestUtility.get, BreakerRestUtility.post, BreakerRestUtility.put.
    split; [|split]; apply guarded_sendsIfAllowed.
Qed.

(** C10, as written, fails in the class with the breaker: while the breaker
    is OPEN a call with the retry flag false sends no request at all. *)
Lemma open_breaker_sends_nothing_without_retry :
  let out := BreakerRestUtility.get isNetworkOrIdempotentRequestError 0 Examples.flaky
               Examples.opened Examples.api "/data" [] false 3 5000 start in
  sent (snd out) = []
  /\ fst (fst out) = Rejected CircuitOpenError
  /\ length (sent (snd out)) <> S (length (sent start)).
Proof. cbv zeta. split; [|split]; vm_compute; [reflexivity | reflexivity | discriminate]. Qed.

(** With the breaker in front, a call is sent once if the breaker lets it
    through and not at all otherwise, with or without the retry flag. *)
Lemma breaker_get_sends_at_most_once isNet mv work this baseURL endpoint headers retry
      retryCount timeout w :
  let w' := snd (BreakerRestUtility.get isNet mv work this baseURL endpoint headers retry
                                        retryCount timeout w) in
  (sent w' = sent w
   \/ sent w' = sent w ++ [mkConfig "get" baseURL endpoint None headers timeout])
  /\ sleeps w' = sleeps w.
Proof.
  unfold BreakerRestUtility.get, BreakerRestUtility.guarded, CircuitBreaker.fire.
  destruct (CircuitBreaker.allow _ _ _) as [[|] s1]; [|split; [left|]; reflexivity].
  unfold BreakerRestUtility.makeRequest, request, create. simpl interceptor. cbv iota.
  match goal with
  | |- context [dispatch ?wk ?c ?x] =>
      pose proof (dispatch_sent wk c x) as [Hs Hp];
      destruct (dispatch wk c x) as [[r|e] w1]; simpl in Hs, Hp
  end;
    destruct (_ && _); simpl; (split; [right|]; assumption).
Qed.

(** C1, as amended: where the request is sent on the instance that
    [applyRetry] configured (the [get] of the second class), with
    [retry = true] and [retryCount = 2], a work function that fails twice
    with a server-class error and then succeeds makes [get] return the
    success value after exactly 2 retries (3 requests), the pauses being
    [retryDelay 1 = 2000] ms and [retryDelay 2 = 4000] ms, 6000 ms in all;
    the request timeout is off or longer than the whole call. *)
Theorem get_succeeds_after_two_retries :
  forall (isNet : AxiosError -> bool) (work : Work) (v : string)
         (baseURL endpoint : string) (headers : JsObject) (timeout : Z) (w : World),
    failsTwiceThenSucceeds work (length (sent w)) v ->
    unhurried work (length (sent w)) timeout 6000 ->
    let out := RestUtility.get isNet work baseURL endpoint headers true 2 timeout w in
    fst out = Resolved v
    /\ length (sent (snd out)) = (length (sent w) + 3)%nat
    /\ sleeps (snd out) = sleeps w ++ [RestUtility.retryDelay 1; RestUtility.retryDelay 2]
    /\ total [RestUtility.retryDelay 1; RestUtility.retryDelay 2] = 6000.
Proof.
  intros isNet work v baseURL endpoint headers timeout w Hwork Hslow out.
  set (cfg := mkConfig "get" baseURL endpoint None headers timeout).
  destruct (Hwork cfg) as ((r0 & Hw0 & Hs0) & (r1 & Hw1 & Hs1) & (r2 & Hw2 & Hok & Hv)).
  assert (Ht : inTime timeout (work (length (sent w)) cfg)
               /\ inTime timeout (work (S (length (sent w))) cfg)
               /\ inTime timeout (work (S (S (length (sent w)))) cfg)).
  { destruct Hslow as [->|H]; [repeat split; left; lia|].
    specialize (H cfg). repeat split; right; lia. }
  destruct Ht as (Ht0 & Ht1 & Ht2).
  set (o := mkRetryConfig 2 (RestUtility.retryCondition isNet) RestUtility.retryDelay).
  pose proof (dispatch_server_failure work cfg w r0 Hw0 Hs0 Ht0) as D0.
  set (w1 := sleep (RestUtility.retryDelay 1)
               {| clock := clock w + took (work (length (sent w)) cfg);
                  sent := sent w ++ [cfg]; sleeps := sleeps w |}).
  assert (L1 : length (sent w1) = S (length (sent w))).
  { simpl. rewrite length_app. simpl. lia. }
  assert (D1 := dispatch_server_failure work cfg w1 r1).
  rewrite L1 in D1. specialize (D1 Hw1 Hs1 Ht1).
  set (w2 := sleep (RestUtility.retryDelay 2)
               {| clock := clock w1 + took (work (S (length (sent w))) cfg);
                  sent := sent w1 ++ [cfg]; sleeps := sleeps w1 |}).
  assert (L2 : length (sent w2) = S (S (length (sent w)))).
  { simpl. rewrite !length_app. simpl. lia. }
  assert (D2 := dispatch_success work cfg w2 r2).
  rewrite L2 in D2. specialize (D2 Hw2 Hok Ht2).
  assert (Hrun : request work (RestUtility.applyRetry isNet true 2
                                 (RestUtility.newInstance baseURL timeout)) cfg w
                 = (Resolved r2,
                    {| clock := clock w2 + took (work (S (S (length (sent w)))) cfg);
                       sent := sent w2 ++ [cfg]; sleeps := sleeps w2 |})).
  { change (retrying work o 2 0 cfg w = (Resolved r2,
                    {| clock := clock w2 + took (work (S (S (length (sent w)))) cfg);
                       sent := sent w2 ++ [cfg]; sleeps := sleeps w2 |})).
    rewrite (retrying_again work o 1 0 cfg w _ _ D0 (retryCondition_server isNet cfg _ r0 Hs0)).
    change (retryDelay o (0 + 1)) with (RestUtility.retryDelay 1). fold w1.
    rewrite (retrying_again work o 0 (0 + 1) cfg w1 _ _ D1
               (retryCondition_server isNet cfg _ r1 Hs1)).
    change (retryDelay o (0 + 1 + 1)) with (RestUtility.retryDelay 2). fold w2.
    apply retrying_resolved. exact D2. }
  subst out. unfold RestUtility.get, RestUtility.send.
  change (mkConfig "get" (Axios.baseURL (defaults _)) endpoint None headers
            (Axios.timeout (defaults _))) with cfg.
  rewrite Hrun. simpl fst. simpl snd.
  split; [simpl; congruence|]. split.
  - simpl. rewrite !length_app. simpl. lia.
  - split; [|reflexivity]. simpl. rewrite <- app_assoc. reflexivity.
Qed.

Lemma get_succeeds_after_two_retries_witness :
  failsTwiceThenSucceeds Examples.flaky (length (sent start)) "ok"
  /\ unhurried Examples.flaky (length (sent start)) 10000 6000
  /\ fst (RestUtility.get isNetworkOrIdempotentRequestError Examples.flaky
            Examples.api "/data" [] true 2 10000 start) = Resolved "ok".
Proof.
  assert (H1 : failsTwiceThenSucceeds Examples.flaky (length (sent start)) "ok").
  { intros cfg. simpl. repeat split; eexists; (split; [reflexivity|]);
      simpl; try lia; split; reflexivity. }
  assert (H2 : unhurried Examples.flaky (length (sent start)) 10000 6000).
  { right. intros cfg. simpl. lia. }
  split; [exact H1|]. split; [exact H2|].
  apply (get_succeeds_after_two_retries isNetworkOrIdempotentRequestError Examples.flaky "ok"
           Examples.api "/data" [] 10000 start H1 H2).
Defined.

(** C1, as written, fails on both classes.  With the breaker, [get]
    configures one instance and sends on another: the first 500 is handed to
    the caller after a single request and no pause.  Without the breaker the
    two retries happen, but the pauses are 2000 + 4000 ms, not
    [base + 2 * base] with [base = 1000]. *)
Lemma get_does_not_succeed_after_base_plus_two_base :
  (let out := BreakerRestUtility.get isNetworkOrIdempotentRequestError 0 Examples.flaky
                BreakerRestUtility.constructor Examples.api "/data" [] true 2 10000 start in
   ~ succeedsAfterTwoRetries 1000 "ok" start (fst (fst out)) (snd out)
   /\ length (sent (snd out)) = 1%nat /\ sleeps (snd out) = [])
  /\ (let out := RestUtility.get isNetworkOrIdempotentRequestError Examples.flaky
                   Examples.api "/data" [] true 2 10000 start in
      ~ succeedsAfterTwoRetries 1000 "ok" start (fst out) (snd out)
      /\ sleeps (snd out) = [2000; 4000]).
Proof.
  split; cbv zeta.
  - split; [|split; vm_compute; reflexivity].
    intros [H _]. vm_compute in H. discriminate H.
  - split; [|vm_compute; reflexivity].
    intros (_ & _ & H). vm_compute in H. discriminate H.
Qed.

(** ** The circuit breaker *)

Section BreakerFacts.

Import CircuitBreaker.

Variable o : Options.

Lemma run_snoc s inputs i : run o s (inputs ++ [i]) = step o (run o s inputs) i.
Proof. unfold run. rewrite fold_left_app. reflexivity. Qed.

Lemma tripped_tripping failures total :
  tripped o failures total = true ->
  minimumVolume o <= total /\ 0 < total
  /\ QArith_base.Qle (failureThresholdRatio o)
                     (QArith_base.Qmake failures (Z.to_pos total)).
Proof.
  unfold tripped. intros H.
  apply andb_true_iff in H as [H H3]. apply andb_true_iff in H as [H1 H2].
  apply Z.leb_le in H1, H3. apply Z.ltb_lt in H2.
  repeat split; [exact H1 | exact H2 |].
  unfold QArith_base.Qle, failureThresholdRatio. simpl.
  rewrite Z2Pos.id by exact H2. lia.
Qed.

Lemma allow_closed now s : status s = CLOSED -> allow o now s = (true, s).
Proof. intros H. unfold allow, refresh. rewrite H. simpl. rewrite H. reflexivity. Qed.

(** One step out of CLOSED: the breaker stays CLOSED, or an outcome trips
    it. *)
Lemma step_from_closed s i :
  status s = CLOSED ->
  status (step o s i) = CLOSED
  \/ (status (step o s i) = OPEN /\ tripping o (step o s i)
      /\ exists now ok, i = Outcome now ok).
Proof.
  intros H. destruct i as [now ok|now|f t]; simpl.
  - unfold record. rewrite H.
    destruct (tripped o (rollingFailureCount s + (if ok then 0 else 1))
                        (rollingTotalCount s + 1)) eqn:E; simpl.
    + right. split; [reflexivity|]. split; [|eauto].
      unfold tripping, failureRatio. simpl. apply tripped_tripping. exact E.
    + left. reflexivity.
  - left. rewrite allow_closed by exact H. exact H.
  - left. exact H.
Qed.

Lemma closedThroughout_end inputs :
  closedThroughout o inputs -> status (run o initial inputs) = CLOSED.
Proof. intros H. specialize (H (length inputs)). rewrite firstn_all in H. exact H. Qed.

Lemma first_opening inputs :
  closedThroughout o inputs
  \/ exists before i after,
       inputs = before ++ i :: after
       /\ closedThroughout o before
       /\ status (run o initial (before ++ [i])) = OPEN
       /\ tripping o (run o initial (before ++ [i])).
Proof.
  induction inputs as [|i inputs IH] using rev_ind.
  - left. intros k. destruct k; reflexivity.
  - destruct IH as [IH|(before & j & after & -> & Hc & Ho & Ht)].
    + pose proof (closedThroughout_end _ IH) as Hend.
      destruct (step_from_closed (run o initial inputs) i Hend) as [Hs|(Hs & Ht & _)].
      * left. intros k. destruct (decide (k <= length inputs)%nat) as [Hk|Hk].
        -- rewrite take_app_le by exact Hk. apply IH.
        -- rewrite take_ge by (rewrite length_app; simpl; lia).
           rewrite run_snoc. exact Hs.
      * right. exists inputs, i, []. rewrite run_snoc.
        split; [reflexivity|]. split; [exact IH|]. split; [exact Hs | exact Ht].
    + right. exists before, j, (after ++ [i]).
      split; [rewrite <- app_assoc; reflexivity|].
      split; [exact Hc|]. split; [exact Ho | exact Ht].
Qed.

Lemma fire_open_rejects {A} (action : World -> Result JsError A * World) s w :
  status s = OPEN -> clock w - openedAt s < resetTimeout o ->
  fire o action s w = (Rejected CircuitOpenError, s, w).
Proof.
  intros Hs Ht. unfold fire, allow, refresh. rewrite Hs.
  replace (resetTimeout o <=? clock w - openedAt s) with false
    by (symmetry; apply Z.leb_gt; exact Ht).
  rewrite Hs. reflexivity.
Qed.

Lemma refresh_half_open now s :
  status s = OPEN -> resetTimeout o <= now - openedAt s ->
  status (refresh o now s) = HALF_OPEN /\ fst (allow o now s) = true.
Proof.
  intros Hs Ht. unfold allow, refresh. rewrite Hs.
  replace (resetTimeout o <=? now - openedAt s) with true
    by (symmetry; apply Z.leb_le; exact Ht).
  split; reflexivity.
Qed.

End BreakerFacts.

(** C5: along every sequence of recorded outcomes (and status queries, and
    slides of the window) that starts in the initial CLOSED state, a step
    takes the breaker from CLOSED to OPEN only when, at that point,
    [rollingTotalCount >= minimumVolume] and
    [rollingFailureCount / rollingTotalCount >= failureThresholdRatio]; and
    a breaker found outside CLOSED was CLOSED all along until a step at
    which both conditions held opened it.  The threshold the source
    configures is 50/100. *)
Theorem closed_to_open_only_when_tripping :
  forall (o : CircuitBreaker.Options) (inputs : list CircuitBreaker.Input),
    (forall i,
        CircuitBreaker.status (CircuitBreaker.run o CircuitBreaker.initial inputs)
        = CircuitBreaker.CLOSED ->
        CircuitBreaker.status (CircuitBreaker.run o CircuitBreaker.initial (inputs ++ [i]))
        = CircuitBreaker.OPEN ->
        CircuitBreaker.tripping o (CircuitBreaker.run o CircuitBreaker.initial (inputs ++ [i])))
    /\ (CircuitBreaker.status (CircuitBreaker.run o CircuitBreaker.initial inputs)
        <> CircuitBreaker.CLOSED ->
        exists before i after,
          inputs = before ++ i :: after
          /\ CircuitBreaker.closedThroughout o before
          /\ CircuitBreaker.status (CircuitBreaker.run o CircuitBreaker.initial (before ++ [i]))
             = CircuitBreaker.OPEN
          /\ CircuitBreaker.tripping o
               (CircuitBreaker.run o CircuitBreaker.initial (before ++ [i])))
    /\ (forall mv, CircuitBreaker.failureThresholdRatio (BreakerRestUtility.options mv)
                   = QArith_base.Qmake 50 100).
Proof.
  intros o inputs. split; [|split].
  - intros i Hc Ho. rewrite run_snoc in *.
    destruct (step_from_closed o _ i Hc) as [H|(_ & H & _)]; [congruence | exact H].
  - intros Hn. destruct (first_opening o inputs) as [H|H]; [|exact H].
    apply closedThroughout_end in H. contradiction.
  - reflexivity.
Qed.

Lemma closed_to_open_only_when_tripping_witness :
  CircuitBreaker.status
    (CircuitBreaker.run (BreakerRestUtility.options 0) CircuitBreaker.initial [])
  = CircuitBreaker.CLOSED
  /\ CircuitBreaker.status
       (CircuitBreaker.run (BreakerRestUtility.options 0) CircuitBreaker.initial
                           ([] ++ [CircuitBreaker.Outcome 100 false]))
     = CircuitBreaker.OPEN
  /\ CircuitBreaker.tripping (BreakerRestUtility.options 0)
       (CircuitBreaker.run (BreakerRestUtility.options 0) CircuitBreaker.initial
                           ([] ++ [CircuitBreaker.Outcome 100 false])).
Proof.
  split; [reflexivity|]. split; [reflexivity|].
  apply (proj1 (closed_to_open_only_when_tripping (BreakerRestUtility.options 0) [])
               (CircuitBreaker.Outcome 100 false)); reflexivity.
Defined.

Section GuardedFacts.

Import CircuitBreaker.

Variables (isNet : AxiosError -> bool) (mv : Z) (work : Work).

Lemma dispatch_blind cfgA cfgB w :
  work (length (sent w)) cfgA = work (length (sent w)) cfgB ->
  Axios.timeout cfgA = Axios.timeout cfgB ->
  isResolved (fst (dispatch work cfgA w)) = isResolved (fst (dispatch work cfgB w))
  /\ clock (snd (dispatch work cfgA w)) = clock (snd (dispatch work cfgB w)).
Proof.
  intros Hw Ht. unfold dispatch. rewrite Hw, Ht.
  destruct ((0 <? Axios.timeout cfgB)
            && (Axios.timeout cfgB <=? took (work (length (sent w)) cfgB)));
    [split; reflexivity|].
  destruct (wire (work (length (sent w)) cfgB)) as [r|c]; [|split; reflexivity].
  destruct (validateStatus (Axios.status r)); split; reflexivity.
Qed.

Lemma makeRequest_dispatch cfg w :
  isResolved (fst (BreakerRestUtility.makeRequest work cfg w))
  = isResolved (fst (dispatch work cfg w))
  /\ snd (BreakerRestUtility.makeRequest work cfg w) = snd (dispatch work cfg w).
Proof.
  unfold BreakerRestUtility.makeRequest, request, create. simpl.
  destruct (dispatch work cfg w) as [[r|e] w']; split; reflexivity.
Qed.

(** The breaker state a guarded call leaves depends on the request only
    through whether it resolved and when it settled. *)
Lemma guarded_blind this cfgA cfgB w :
  work (length (sent w)) cfgA = work (length (sent w)) cfgB ->
  Axios.timeout cfgA = Axios.timeout cfgB ->
  snd (fst (BreakerRestUtility.guarded mv work this cfgA w))
  = snd (fst (BreakerRestUtility.guarded mv work this cfgB w)).
Proof.
  intros Hw Ht. unfold BreakerRestUtility.guarded, fire.
  destruct (allow (BreakerRestUtility.options mv) (clock w)
                  (BreakerRestUtility.circuitBreaker this)) as [[|] s1]; [|reflexivity].
  destruct (dispatch_blind cfgA cfgB w Hw Ht) as [Hr Hc].
  destruct (makeRequest_dispatch cfgA w) as [Ra Wa].
  destruct (makeRequest_dispatch cfgB w) as [Rb Wb].
  destruct (BreakerRestUtility.makeRequest work cfgA w) as [ra wa].
  destruct (BreakerRestUtility.makeRequest work cfgB w) as [rb wb].
  simpl in Ra, Wa, Rb, Wb. subst wa wb. rewrite <- Hc.
  assert (Hab : isResolved ra = isResolved rb) by congruence.
  destruct ((0 <? timeout (BreakerRestUtility.options mv))
            && (timeout (BreakerRestUtility.options mv)
                <=? clock (snd (dispatch work cfgA w)) - clock w)); simpl.
  - reflexivity.
  - rewrite Hab, Hc. reflexivity.
Qed.

Lemma guarded_open_rejects this cfg w :
  status (BreakerRestUtility.circuitBreaker this) = OPEN ->
  clock w - openedAt (BreakerRestUtility.circuitBreaker this) < 10000 ->
  BreakerRestUtility.guarded mv work this cfg w = (Rejected CircuitOpenError, this, w).
Proof.
  intros Hs Ht. unfold BreakerRestUtility.guarded.
  rewrite fire_open_rejects by assumption. destruct this. reflexivity.
Qed.

Lemma guarded_trial this cfg w :
  status (BreakerRestUtility.circuitBreaker this) = OPEN ->
  10000 <= clock w - openedAt (BreakerRestUtility.circuitBreaker this) ->
  sent (snd (BreakerRestUtility.guarded mv work this cfg w)) = sent w ++ [cfg].
Proof.
  intros Hs Ht. unfold BreakerRestUtility.guarded, fire, allow, refresh.
  rewrite Hs.
  replace (resetTimeout (BreakerRestUtility.options mv)
           <=? clock w - openedAt (BreakerRestUtility.circuitBreaker this)) with true
    by (symmetry; apply Z.leb_le; exact Ht).
  simpl status. cbv iota. simpl trialInFlight. cbv iota.
  destruct (makeRequest_dispatch cfg w) as [_ Wd].
  destruct (dispatch_sent work cfg w) as [Hsent _].
  destruct (BreakerRestUtility.makeRequest work cfg w) as [r w1].
  simpl in Wd. subst w1.
  destruct ((0 <? timeout (BreakerRestUtility.options mv))
            && (timeout (BreakerRestUtility.options mv)
                <=? clock (snd (dispatch work cfg w)) - clock w)); simpl; exact Hsent.
Qed.

End GuardedFacts.

(** C6: a call ([get], [post] or [put]) issued while the breaker is OPEN and
    less than [resetTimeout] (10000 ms) after [openedAt] fails with
    [CircuitOpenError], and the work function is not invoked, whatever it
    is: no request is sent and the world is as before.  Once [resetTimeout]
    has elapsed the breaker is HALF_OPEN, and the call goes out as the
    trial. *)
Theorem open_breaker_rejects_until_reset_timeout :
  forall (isNet : AxiosError -> bool) (mv : Z) (work : Work)
         (this : BreakerRestUtility.RestUtility) (baseURL endpoint : string)
         (data headers : JsObject) (retry : bool) (retryCount timeout : Z) (w : World),
    CircuitBreaker.status (BreakerRestUtility.circuitBreaker this) = CircuitBreaker.OPEN ->
    let elapsed := clock w - CircuitBreaker.openedAt (BreakerRestUtility.circuitBreaker this) in
    let resetTimeout := CircuitBreaker.resetTimeout (BreakerRestUtility.options mv) in
    resetTimeout = 10000
    /\ (elapsed < resetTimeout ->
        BreakerRestUtility.get isNet mv work this baseURL endpoint headers retry retryCount
                               timeout w
        = (Rejected CircuitOpenError, this, w)
        /\ BreakerRestUtility.post isNet mv work this baseURL endpoint data headers retry
                                   retryCount timeout w
           = (Rejected CircuitOpenError, this, w)
        /\ BreakerRestUtility.put isNet mv work this baseURL endpoint data headers retry
                                  retryCount timeout w
           = (Rejected CircuitOpenError, this, w))
    /\ (resetTimeout <= elapsed ->
        observedStatus mv this w = CircuitBreaker.HALF_OPEN
        /\ sent (snd (BreakerRestUtility.get isNet mv work this baseURL endpoint headers retry
                                             retryCount timeout w))
           = sent w ++ [mkConfig "get" baseURL endpoint None headers timeout]).
Proof.
  intros isNet mv work this baseURL endpoint data headers retry retryCount timeout w Hs
         elapsed rt.
  split; [reflexivity|]. split.
  - intros Ht.
    unfold BreakerRestUtility.get, BreakerRestUtility.post, BreakerRestUtility.put.
    repeat split; apply guarded_open_rejects; assumption.
  - intros Ht. split.
    + apply (refresh_half_open (BreakerRestUtility.options mv)); assumption.
    + unfold BreakerRestUtility.get. apply guarded_trial; assumption.
Qed.

Lemma open_breaker_rejects_until_reset_timeout_witness :
  CircuitBreaker.status (BreakerRestUtility.circuitBreaker Examples.opened)
  = CircuitBreaker.OPEN
  /\ BreakerRestUtility.get isNetworkOrIdempotentRequestError 0 Examples.flaky Examples.opened
       Examples.api "/data" [] false 3 5000 start
     = (Rejected CircuitOpenError, Examples.opened, start).
Proof.
  split; [reflexivity|].
  pose proof (open_breaker_rejects_until_reset_timeout isNetworkOrIdempotentRequestError 0
                Examples.flaky Examples.opened Examples.api "/data" [] [] false 3 5000 start
                eq_refl) as (_ & H & _).
  apply H. simpl. lia.
Defined.

(** C3, as written, fails: the utility has one breaker.  A single failed
    call to [/a] opens it, and the next call to [/b], which would have been
    answered, is refused. *)
Lemma one_endpoint_opens_the_breaker_for_another :
  ~ endpointsIndependent isNetworkOrIdempotentRequestError 0 Examples.split
  /\ (let out := BreakerRestUtility.get isNetworkOrIdempotentRequestError 0 Examples.split
                   BreakerRestUtility.constructor Examples.api "/a" [] false 3 5000 start in
      fst (fst (BreakerRestUtility.get isNetworkOrIdempotentRequestError 0 Examples.split
                  BreakerRestUtility.constructor Examples.api "/b" [] false 3 5000 (snd out)))
      = Resolved "ok"
      /\ fst (fst (BreakerRestUtility.get isNetworkOrIdempotentRequestError 0 Examples.split
                     (snd (fst out)) Examples.api "/b" [] false 3 5000 (snd out)))
         = Rejected CircuitOpenError).
Proof.
  split.
  - intros H.
    specialize (H BreakerRestUtility.constructor Examples.api "/a" "/b" [] false 3 5000 start).
    assert (Hne : "/a" <> "/b") by discriminate.
    specialize (H Hne). vm_compute in H. discriminate H.
  - split; vm_compute; reflexivity.
Qed.

(** C3, as amended: the breaker is one state machine per [RestUtility]
    object, shared by all the endpoints called through it.  The state a call
    leaves does not depend on the endpoint it named (two endpoints answering
    alike leave the same breaker state), and once a call to any endpoint has
    left the breaker OPEN, calls to every endpoint are refused until
    [resetTimeout] has elapsed. *)
Theorem one_breaker_for_all_endpoints :
  forall (isNet : AxiosError -> bool) (mv : Z) (work : Work)
         (this : BreakerRestUtility.RestUtility) (baseURL a b : string)
         (headers : JsObject) (retry : bool) (retryCount timeout : Z) (w : World),
    work (length (sent w)) (mkConfig "get" baseURL a None headers timeout)
    = work (length (sent w)) (mkConfig "get" baseURL b None headers timeout) ->
    let outA := BreakerRestUtility.get isNet mv work this baseURL a headers retry retryCount
                                       timeout w in
    let outB := BreakerRestUtility.get isNet mv work this baseURL b headers retry retryCount
                                       timeout w in
    snd (fst outA) = snd (fst outB)
    /\ (CircuitBreaker.status (BreakerRestUtility.circuitBreaker (snd (fst outA)))
        = CircuitBreaker.OPEN ->
        forall (work' : Work) (baseURL' c : string) (headers' : JsObject) (retry' : bool)
               (retryCount' timeout' : Z) (w' : World),
          clock w' - CircuitBreaker.openedAt (BreakerRestUtility.circuitBreaker (snd (fst outA)))
          < 10000 ->
          BreakerRestUtility.get isNet mv work' (snd (fst outA)) baseURL' c headers' retry'
                                 retryCount' timeout' w'
          = (Rejected CircuitOpenError, snd (fst outA), w')).
Proof.
  intros isNet mv work this baseURL a b headers retry retryCount timeout w Hw outA outB.
  split.
  - subst outA outB. unfold BreakerRestUtility.get.
    apply guarded_blind; [exact Hw | reflexivity].
  - intros Hs work' baseURL' c headers' retry' retryCount' timeout' w' Ht.
    unfold BreakerRestUtility.get. apply guarded_open_rejects; assumption.
Qed.

Lemma one_breaker_for_all_endpoints_witness :
  Examples.split (length (sent start)) (mkConfig "get" Examples.api "/b" None [] 5000)
  = Examples.split (length (sent start)) (mkConfig "get" Examples.api "/c" None [] 5000)
  /\ snd (fst (BreakerRestUtility.get isNetworkOrIdempotentRequestError 0 Examples.split
                 BreakerRestUtility.constructor Examples.api "/b" [] false 3 5000 start))
     = snd (fst (BreakerRestUtility.get isNetworkOrIdempotentRequestError 0 Examples.split
                   BreakerRestUtility.constructor Examples.api "/c" [] false 3 5000 start)).
Proof.
  split; [reflexivity|].
  apply (one_breaker_for_all_endpoints isNetworkOrIdempotentRequestError 0 Examples.split
           BreakerRestUtility.constructor Examples.api "/b" "/c" [] false 3 5000 start eq_refl).
Defined.

(** ** The critical section *)

Section CreateOrderFacts.

Import OrderService.

(** Case analysis on how each call made by [createOrder] settles. *)
Ltac settle env :=
  repeat match goal with
         | |- context [failure env ?t ?ev] => destruct (failure env t ev); simpl
         end.

Ltac open_createOrder :=
  unfold createOrder, tryCatchFinally, critical, handler, finalizer, processOrder,
    perform, redlock_acquire, assignLock, readLock, releases, fresh, logged,
    mbind, M_bind, bind, throw, ret; simpl.

Lemma createOrder_releases env orderId :
  releases (snd (createOrder orderId env fresh))
  = match acquired env [] ["order_lock:" +:+ orderId] 30000 with
    | Resolved l => [LockRelease l]
    | Rejected _ => []
    end.
Proof.
  open_createOrder.
  destruct (acquired env [] ["order_lock:" +:+ orderId] 30000) as [l|e]; simpl;
    settle env; reflexivity.
Qed.

Lemma createOrder_starts_with_acquire env orderId :
  head (trace (snd (createOrder orderId env fresh)))
  = Some (RedlockAcquire ["order_lock:" +:+ orderId] 30000).
Proof.
  open_createOrder.
  destruct (acquired env [] ["order_lock:" +:+ orderId] 30000) as [l|e]; simpl;
    settle env; reflexivity.
Qed.

Lemma createOrder_rejects env orderId cause :
  fst (critical orderId env fresh) = Rejected cause ->
  exists e, fst (createOrder orderId env fresh) = Rejected e.
Proof.
  open_createOrder.
  destruct (acquired env [] ["order_lock:" +:+ orderId] 30000) as [l|e]; simpl;
    settle env; intros H; try discriminate H; eauto.
Qed.

Lemma createOrder_rejects_generic env orderId cause :
  quiet env ->
  fst (critical orderId env fresh) = Rejected cause ->
  fst (createOrder orderId env fresh) = Rejected (Error "Could not create order").
Proof.
  intros Hq. open_createOrder.
  destruct (acquired env [] ["order_lock:" +:+ orderId] 30000) as [l|e]; simpl;
    repeat match goal with
           | |- context [failure env ?t ?ev] =>
               first [ rewrite (Hq t ev)
                     | destruct (failure env t ev) ]; simpl
           end;
    intros H; try discriminate H; reflexivity.
Qed.

End CreateOrderFacts.

(** C8: on every exit path of [createOrder], whatever [redlock.acquire],
    the logger, the work on the order and [release] itself do, the calls
    made before [createOrder] settles contain exactly one [release], on the
    lock that [acquire] resolved with, if the lock was acquired, and none if
    acquisition failed (in which case [createOrder] throws). *)
Theorem createOrder_releases_exactly_when_acquired :
  forall (env : OrderService.Env) (orderId : string),
    let out := OrderService.createOrder orderId env OrderService.fresh in
    head (OrderService.trace (snd out))
    = Some (OrderService.RedlockAcquire ["order_lock:" +:+ orderId] 30000)
    /\ match OrderService.acquired env [] ["order_lock:" +:+ orderId] 30000 with
       | Resolved l => OrderService.releases (snd out) = [OrderService.LockRelease l]
       | Rejected _ => OrderService.releases (snd out) = [] /\ exists e, fst out = Rejected e
       end.
Proof.
  intros env orderId out. subst out.
  split; [apply createOrder_starts_with_acquire|].
  rewrite createOrder_releases.
  destruct (OrderService.acquired env [] ["order_lock:" +:+ orderId] 30000) as [l|e] eqn:E;
    [reflexivity|].
  split; [reflexivity|].
  apply (createOrder_rejects env orderId e).
  unfold OrderService.critical, OrderService.redlock_acquire, mbind, OrderService.M_bind,
    OrderService.bind, OrderService.fresh. simpl. rewrite E. reflexivity.
Qed.

(** The path of C8 on which the protected work throws: the lock is released
    after the failure, and [createOrder] rethrows. *)
Example createOrder_releases_when_work_fails :
  let out := OrderService.createOrder "42" Examples.workFails OrderService.fresh in
  fst out = Rejected (Error "Could not create order")
  /\ OrderService.releases (snd out)
     = [OrderService.LockRelease (OrderService.mkLock ["order_lock:42"] "5f1c" 30000)]
  /\ last (OrderService.trace (snd out))
     = Some (OrderService.LoggerLog "Released lock for order: 42").
Proof. vm_compute. repeat split. Qed.

(** ** What the caller is handed on failure *)

Lemma plain_get_rethrows isNet work baseURL endpoint headers retry retryCount timeout w e :
  fst (request work (RestUtility.applyRetry isNet retry retryCount
                       (RestUtility.newInstance baseURL timeout))
               (mkConfig "get" baseURL endpoint None headers timeout) w) = Rejected e ->
  fst (RestUtility.get isNet work baseURL endpoint headers retry retryCount timeout w)
  = Rejected e.
Proof.
  unfold RestUtility.get, RestUtility.send.
  replace (Axios.baseURL (defaults (RestUtility.applyRetry isNet retry retryCount
                                      (RestUtility.newInstance baseURL timeout))))
    with baseURL by (destruct retry; reflexivity).
  replace (Axios.timeout (defaults (RestUtility.applyRetry isNet retry retryCount
                                      (RestUtility.newInstance baseURL timeout))))
    with timeout by (destruct retry; reflexivity).
  destruct (request _ _ _ _) as [[r|e'] w']; simpl; intros H; congruence.
Qed.

Lemma breaker_get_rethrows isNet mv work this baseURL endpoint headers retry retryCount
      timeout w e :
  fst (dispatch work (mkConfig "get" baseURL endpoint None headers timeout) w) = Rejected e ->
  let r := fst (fst (BreakerRestUtility.get isNet mv work this baseURL endpoint headers retry
                                            retryCount timeout w)) in
  r = Rejected (AxiosErr e) \/ r = Rejected TimeoutError \/ r = Rejected CircuitOpenError.
Proof.
  intros H. unfold BreakerRestUtility.get, BreakerRestUtility.guarded, CircuitBreaker.fire.
  destruct (CircuitBreaker.allow _ _ _) as [[|] s1]; [|right; right; reflexivity].
  unfold BreakerRestUtility.makeRequest, request, create. simpl interceptor. cbv iota.
  destruct (dispatch _ _ _) as [[x|e'] w1]; simpl in H; [discriminate H|].
  injection H as ->.
  destruct (_ && _); simpl; [right; left | left]; reflexivity.
Qed.

(** C9, as amended: a failed operation always reaches the caller as an
    error.  [RestUtility.get] rethrows what it caught: the error of the
    request as it is (with the breaker: that error, or the breaker's
    [TimeoutError] or [CircuitOpenError]), so the class of the failure can be
    read off it.  [createOrder] throws whenever acquisition or the protected
    work fails, but what it throws is a new [Error("Could not create order")],
    the same for every cause (the cause is only logged). *)
Theorem failures_reach_the_caller :
  (forall isNet work baseURL endpoint headers retry retryCount timeout w e,
      fst (request work (RestUtility.applyRetry isNet retry retryCount
                           (RestUtility.newInstance baseURL timeout))
                   (mkConfig "get" baseURL endpoint None headers timeout) w) = Rejected e ->
      fst (RestUtility.get isNet work baseURL endpoint headers retry retryCount timeout w)
      = Rejected e)
  /\ (forall isNet mv work this baseURL endpoint headers retry retryCount timeout w e,
        fst (dispatch work (mkConfig "get" baseURL endpoint None headers timeout) w)
        = Rejected e ->
        let r := fst (fst (BreakerRestUtility.get isNet mv work this baseURL endpoint headers
                                                  retry retryCount timeout w)) in
        r = Rejected (AxiosErr e) \/ r = Rejected TimeoutError
        \/ r = Rejected CircuitOpenError)
  /\ (forall env orderId cause,
        fst (OrderService.critical orderId env OrderService.fresh) = Rejected cause ->
        (exists e, fst (OrderService.createOrder orderId env OrderService.fresh) = Rejected e)
        /\ (OrderService.quiet env ->
            fst (OrderService.createOrder orderId env OrderService.fresh)
            = Rejected (Error "Could not create order"))).
Proof.
  split; [|split].
  - intros. apply plain_get_rethrows. assumption.
  - intros. apply breaker_get_rethrows. assumption.
  - intros env orderId cause H. split.
    + apply (createOrder_rejects env orderId cause H).
    + intros Hq. apply (createOrder_rejects_generic env orderId cause Hq H).
Qed.

Lemma failures_reach_the_caller_witness :
  fst (OrderService.critical "42" Examples.noQuorum OrderService.fresh)
  = Rejected QuorumNotReachedError
  /\ OrderService.quiet Examples.noQuorum
  /\ fst (OrderService.createOrder "42" Examples.noQuorum OrderService.fresh)
     = Rejected (Error "Could not create order").
Proof.
  assert (Hq : OrderService.quiet Examples.noQuorum).
  { intros t ev. destruct ev; first [reflexivity | exact I]. }
  split; [reflexivity|]. split; [exact Hq|].
  apply (proj2 (proj2 (proj2 failures_reach_the_caller) Examples.noQuorum "42"
                      QuorumNotReachedError eq_refl)).
  exact Hq.
Defined.

(** C9, as written, fails for [createOrder]: a lock that could not be
    acquired for lack of quorum and a 503 met by the protected work are
    thrown to the caller as the same error, so no reading of that error
    tells the two classes apart. *)
Lemma createOrder_drops_the_classification :
  ~ surfacesClassification
  /\ fst (OrderService.createOrder "42" Examples.noQuorum OrderService.fresh)
     = fst (OrderService.createOrder "42" Examples.workFails OrderService.fresh)
  /\ classOf QuorumNotReachedError <> classOf (AxiosErr Examples.unavailable).
Proof.
  split; [|split; [vm_compute; reflexivity | discriminate]].
  intros [classify H].
  destruct (H Examples.noQuorum "42" QuorumNotReachedError eq_refl) as (e1 & He1 & Hc1).
  destruct (H Examples.workFails "42" (AxiosErr Examples.unavailable) eq_refl)
    as (e2 & He2 & Hc2).
  vm_compute in He1, He2. injection He1 as <-. injection He2 as <-.
  rewrite Hc1 in Hc2. discriminate Hc2.
Qed.

(** ** The lock manager *)

Section LockManagerFacts.

Import LockManager.

Variables (key token : string) (ttl startTime : Z).

Let settle := tryAcquire startTime key token ttl.

(** An authority that accepted holds the requester's record, and gives it
    up on [release]. *)
Lemma release_after_tryAcquire a :
  fst (settle a) = true ->
  records (snd (settle a)) !! key
  = Some {| ownerToken := token; expiresAt := startTime + ttl |}
  /\ fst (release key token (snd (settle a))) = true
  /\ records (snd (release key token (snd (settle a)))) !! key = None.
Proof.
  subst settle. unfold tryAcquire.
  destruct (answers a) eqn:Ha; [|discriminate].
  assert (G : forall g : Authority,
             g = {| records := <[key := {| ownerToken := token;
                                           expiresAt := startTime + ttl |}]> (records a);
                    answers := true |} ->
             records g !! key = Some {| ownerToken := token; expiresAt := startTime + ttl |}
             /\ fst (release key token g) = true
             /\ records (snd (release key token g)) !! key = None).
  { intros g ->. unfold release. simpl. rewrite lookup_insert_eq. simpl.
    rewrite bool_decide_eq_true_2 by reflexivity. simpl.
    repeat split. apply lookup_delete_eq. }
  destruct (records a !! key) as [r|].
  - destruct (expiresAt r <=? startTime); [|discriminate].
    intros _. apply G. reflexivity.
  - intros _. apply G. reflexivity.
Qed.

Lemma releasedAt_positions (settled : list (bool * Authority)) (i : nat) :
  i ∈ omap (fun p : nat * (bool * Authority) => if fst (snd p) then Some (fst p) else None)
           (imap (fun i s => (i, s)) settled)
  <-> exists s, settled !! i = Some s /\ fst s = true.
Proof.
  rewrite list_elem_of_omap. split.
  - intros ([j s] & Hin & Hf). apply elem_of_lookup_imap in Hin as (j' & s' & Heq & Hl).
    injection Heq as -> ->. simpl in Hf.
    destruct (fst s') eqn:E; [|discriminate]. injection Hf as ->. eauto.
  - intros (s & Hl & Hs). exists (i, s). split.
    + apply elem_of_lookup_imap. eauto.
    + simpl. rewrite Hs. reflexivity.
Qed.

Variables (drift elapsed : Z) (nodes : list Authority).

Lemma acquire_decision :
  isAcquired (acquire drift nodes key token ttl startTime elapsed) = true
  <-> majority (Z.of_nat (length nodes)) <= accepted (settle <$> nodes)
      /\ 0 < ttl - elapsed - drift.
Proof.
  unfold acquire, isAcquired. fold settle.
  destruct ((majority (Z.of_nat (length nodes)) <=? accepted (settle <$> nodes))
            && (0 <? ttl - elapsed - drift)) eqn:E; simpl.
  - apply andb_true_iff in E as [E1 E2]. apply Z.leb_le in E1. apply Z.ltb_lt in E2.
    split; [auto | reflexivity].
  - split; [discriminate|]. intros [H1 H2].
    apply andb_false_iff in E as [E|E]; [apply Z.leb_gt in E | apply Z.ltb_ge in E]; lia.
Qed.

Lemma acquire_lease :
  isAcquired (acquire drift nodes key token ttl startTime elapsed) = true ->
  result (acquire drift nodes key token ttl startTime elapsed)
  = Acquired {| resourceKey := key; leaseToken := token;
                validUntil := startTime + (ttl - elapsed - drift);
                quorumAchieved := accepted (settle <$> nodes) |}.
Proof.
  unfold acquire, isAcquired. fold settle.
  destruct (_ && _); simpl; [reflexivity | discriminate].
Qed.

Lemma acquire_failure_releases :
  isAcquired (acquire drift nodes key token ttl startTime elapsed) = false ->
  let att := acquire drift nodes key token ttl startTime elapsed in
  result att = QuorumNotReached
  /\ forall i a,
       nodes !! i = Some a ->
       (i ∈ releasedAt att <-> fst (settle a) = true)
       /\ (fst (settle a) = true ->
           exists a', authorities att !! i = Some a' /\ records a' !! key = None).
Proof.
  unfold acquire, isAcquired. fold settle.
  destruct (_ && _); simpl; [discriminate|]. intros _.
  split; [reflexivity|]. intros i a Hi. split.
  - rewrite releasedAt_positions. rewrite list_lookup_fmap, Hi. simpl. split.
    + intros (s & Hs & Ht). injection Hs as <-. exact Ht.
    + intros Ht. eauto.
  - intros Ht. rewrite list_lookup_fmap, list_lookup_fmap, Hi. simpl.
    rewrite Ht. eexists. split; [reflexivity|].
    apply release_after_tryAcquire. exact Ht.
Qed.

End LockManagerFacts.

(** C2: [acquire] over N lock authorities returns a Lease exactly when the
    number of authorities that accepted is at least [floor(N/2) + 1] and the
    remaining validity [ttl - elapsed - clockDriftMargin] is positive.  With
    N = 3, two acceptances (and validity left) give a Lease with quorum 2;
    one acceptance gives [QuorumNotReached], and [release] is issued to the
    authority that accepted, and to no other, after which it holds no record
    for the key. *)
Theorem acquire_exactly_on_quorum_and_validity :
  forall (clockDriftMargin : Z) (nodes : list LockManager.Authority) (key token : string)
         (ttl startTime elapsed : Z),
    let settled := LockManager.tryAcquire startTime key token ttl <$> nodes in
    let n := Z.of_nat (length nodes) in
    let remaining := ttl - elapsed - clockDriftMargin in
    let att := LockManager.acquire clockDriftMargin nodes key token ttl startTime elapsed in
    (LockManager.isAcquired att = true
     <-> n / 2 + 1 <= LockManager.accepted settled /\ 0 < remaining)
    /\ (n = 3 -> LockManager.accepted settled = 2 -> 0 < remaining ->
        LockManager.result att
        = LockManager.Acquired (LockManager.mkLease key token (startTime + remaining) 2))
    /\ (n = 3 -> LockManager.accepted settled = 1 ->
        LockManager.result att = LockManager.QuorumNotReached
        /\ forall i a,
             nodes !! i = Some a ->
             (i ∈ LockManager.releasedAt att
              <-> fst (LockManager.tryAcquire startTime key token ttl a) = true)
             /\ (fst (LockManager.tryAcquire startTime key token ttl a) = true ->
                 exists a', LockManager.authorities att !! i = Some a'
                            /\ LockManager.records a' !! key = None)).
Proof.
  intros drift nodes key token ttl startTime elapsed settled n remaining att.
  pose proof (acquire_decision key token ttl startTime drift elapsed nodes) as D.
  fold att settled n in D. unfold LockManager.majority in D. fold n remaining in D.
  split; [exact D|]. split.
  - intros Hn Hq Hr.
    assert (Ha : LockManager.isAcquired att = true).
    { apply D. rewrite Hn, Hq. split; [reflexivity | exact Hr]. }
    subst att. rewrite acquire_lease by exact Ha. fold settled. rewrite Hq. reflexivity.
  - intros Hn Hq.
    assert (Ha : LockManager.isAcquired att = false).
    { destruct (LockManager.isAcquired att); [|reflexivity].
      destruct (proj1 D eq_refl) as [E _]. rewrite Hn, Hq in E.
      change (3 / 2 + 1) with 2 in E. lia. }
    apply (acquire_failure_releases key token ttl startTime drift elapsed nodes Ha).
Qed.

Lemma acquire_exactly_on_quorum_and_validity_witness :
  Z.of_nat (length [Examples.free; Examples.free; Examples.down]) = 3
  /\ LockManager.accepted
       (LockManager.tryAcquire 1000 "order_lock:42" "5f1c" 30000
          <$> [Examples.free; Examples.free; Examples.down]) = 2
  /\ 0 < 30000 - 15 - 2
  /\ LockManager.result
       (LockManager.acquire 2 [Examples.free; Examples.free; Examples.down]
                            "order_lock:42" "5f1c" 30000 1000 15)
     = LockManager.Acquired (LockManager.mkLease "order_lock:42" "5f1c" (1000 + (30000 - 15 - 2)) 2).
Proof.
  split; [reflexivity|]. split; [reflexivity|]. split; [reflexivity|].
  apply (proj1 (proj2 (acquire_exactly_on_quorum_and_validity 2
                         [Examples.free; Examples.free; Examples.down]
                         "order_lock:42" "5f1c" 30000 1000 15)));
    reflexivity.
Defined.

(** Section 8's instance of C2: three authorities, one free, one that times
    out, and a third that is free (a Lease, quorum 2) or held by another
    owner (no quorum, and the free one is released). *)
Example acquire_three_authorities :
  LockManager.result
    (LockManager.acquire 2 [Examples.free; Examples.free; Examples.down]
                         "order_lock:42" "5f1c" 30000 1000 15)
  = LockManager.Acquired (LockManager.mkLease "order_lock:42" "5f1c" 30983 2)
  /\ (let att := LockManager.acquire 2 [Examples.free; Examples.held; Examples.down]
                                     "order_lock:42" "5f1c" 30000 1000 15 in
      LockManager.result att = LockManager.QuorumNotReached
      /\ LockManager.releasedAt att = [0%nat]
      /\ LockManager.authorities att = [Examples.free; Examples.held; Examples.down]).
Proof. vm_compute. repeat split. Qed.

(** * Further properties of the code *)

(** ** The retry loop as [RestUtility] configures it *)

Section RetrySchedule.

Variables (work : Work) (o : IAxiosRetryConfig) (cfg : Config).



End RetrySchedule.



Section SendFacts.

Variables (isNet : AxiosError -> bool) (work : Work).


End SendFacts.



Lemma retrying_stops work o left n cfg w e w1 :
  dispatch work cfg w = (Rejected e, w1) ->
  retryCondition o e = false ->
  retrying work o left n cfg w = (Rejected e, w1).
Proof. intros H Hc. destruct left; simpl; rewrite H; [|rewrite Hc]; reflexivity. Qed.

Lemma dispatch_client_failure work cfg w r :
  wire (work (length (sent w)) cfg) = Answer r -> 400 <= status r < 500 ->
  inTime (timeout cfg) (work (length (sent w)) cfg) ->
  dispatch work cfg w
  = (Rejected {| code := Some "ERR_BAD_REQUEST"; response := Some r; config := cfg |},
     {| clock := clock w + took (work (length (sent w)) cfg);
        sent := sent w ++ [cfg]; sleeps := sleeps w |}).
Proof.
  intros Hw Hs Ht. unfold dispatch.
  replace ((0 <? timeout cfg) && (timeout cfg <=? took (work (length (sent w)) cfg)))
    with false by (symmetry; apply andb_false_iff; destruct Ht; [left|right]; lia).
  rewrite Hw. unfold validateStatus.
  replace (status r <? 300) with false by (symmetry; apply Z.ltb_ge; lia).
  replace (status r <? 500) with true by (symmetry; apply Z.ltb_lt; lia).
  rewrite andb_false_r. reflexivity.
Qed.



(** The library predicate, as axios-retry 4 has it, declines every error
    with a 4xx response other than 429. *)
Lemma library_declines_4xx_but_429 :
  forall (e : AxiosError) (r : Response),
    response e = Some r -> 400 <= status r < 500 -> status r <> 429 ->
    isNetworkOrIdempotentRequestError e = false.
Proof.
  intros e r Hr Hs Hn.
  unfold isNetworkOrIdempotentRequestError, isIdempotentRequestError, isNetworkError,
    isRetryableError.
  rewrite Hr.
  assert (H1 : (status r =? 429) = false) by (apply Z.eqb_neq; exact Hn).
  assert (H2 : (500 <=? status r) = false) by (apply Z.leb_gt; lia).
  rewrite H1, H2. simpl. rewrite andb_false_r. reflexivity.
Qed.

(** X3: a 4xx answer that the library predicate declines is final.  With
    [retry = true] and any [retryCount], when the first answer is a 4xx and
    [isNetworkOrIdempotentRequestError] does not accept the error made of
    it, [get] sends no second request, takes no pause, and rejects with the
    error that carries that response.  (axios-retry 4 declines every 4xx
    but 429: [library_declines_4xx_but_429].) *)
Theorem declined_client_error_is_not_retried :
  forall (isNet : AxiosError -> bool)
         (work : Work) (baseURL endpoint : string) (headers : JsObject)
         (retryCount timeout : Z) (w : World) (r : Response),
    let cfg := mkConfig "get" baseURL endpoint None headers timeout in
    wire (work (length (sent w)) cfg) = Answer r ->
    400 <= status r < 500 ->
    inTime timeout (work (length (sent w)) cfg) ->
    isNet {| code := Some "ERR_BAD_REQUEST"; response := Some r; config := cfg |} = false ->
    RestUtility.get isNet work baseURL endpoint headers true retryCount timeout w
    = (Rejected {| code := Some "ERR_BAD_REQUEST"; response := Some r; config := cfg |},
       {| clock := clock w + took (work (length (sent w)) cfg);
          sent := sent w ++ [cfg]; sleeps := sleeps w |}).
Proof.
  intros isNet work baseURL endpoint headers retryCount timeout w r cfg Hw Hs Ht Hlib.
  pose proof (dispatch_client_failure work cfg w r Hw Hs Ht) as D.
  assert (Hc : RestUtility.retryCondition isNet
                 {| code := Some "ERR_BAD_REQUEST"; response := Some r; config := cfg |}
               = false).
  { unfold RestUtility.retryCondition, INTERNAL_SERVER_ERROR. rewrite Hlib. simpl.
    apply Z.leb_gt; lia. }
  set (o := mkRetryConfig retryCount (RestUtility.retryCondition isNet)
                          RestUtility.retryDelay).
  assert (Hrun : request work (RestUtility.applyRetry isNet true retryCount
                                 (RestUtility.newInstance baseURL timeout)) cfg w
                 = (Rejected {| code := Some "ERR_BAD_REQUEST"; response := Some r;
                                config := cfg |},
                    {| clock := clock w + took (work (length (sent w)) cfg);
                       sent := sent w ++ [cfg]; sleeps := sleeps w |})).
  { change (retrying work o (Z.to_nat retryCount) 0 cfg w
            = (Rejected {| code := Some "ERR_BAD_REQUEST"; response := Some r;
                           config := cfg |},
               {| clock := clock w + took (work (length (sent w)) cfg);
                  sent := sent w ++ [cfg]; sleeps := sleeps w |})).
    apply retrying_stops; assumption. }
  unfold RestUtility.get, RestUtility.send.
  change (mkConfig "get" (Axios.baseURL (defaults _)) endpoint None headers
            (Axios.timeout (defaults _))) with cfg.
  rewrite Hrun. reflexivity.
Qed.

Lemma declined_client_error_is_not_retried_witness :
  sleeps (snd (RestUtility.get isNetworkOrIdempotentRequestError Scenarios.missing
                 Examples.api "/data" [] true 5 10000 start)) = [].
Proof.
  rewrite (declined_client_error_is_not_retried isNetworkOrIdempotentRequestError
             Scenarios.missing
             Examples.api "/data" [] 5 10000 start {| status := 404; body := "no such thing" |}
             eq_refl).
  - reflexivity.
  - simpl. lia.
  - right. simpl. lia.
  - reflexivity.
Defined.

(** X4: [post] is retried like [get].  With [retry = true], at least one
    retry allowed and no request timeout, a 5xx answer to a [post] makes the
    same request, body included, go out a second time after 2000 ms; when
    that one is answered with a 2xx, [post] returns its data. *)
Theorem post_is_sent_again_after_a_server_error :
  forall (isNet : AxiosError -> bool) (work : Work) (baseURL endpoint : string)
         (data headers : JsObject) (retryCount : Z) (w : World) (r : Response) (v : string),
    let cfg := mkConfig "post" baseURL endpoint (Some data) headers 0 in
    1 <= retryCount ->
    wire (work (length (sent w)) cfg) = Answer r -> 500 <= status r ->
    success (work (S (length (sent w))) cfg) v ->
    let out := RestUtility.post isNet work baseURL endpoint data headers true retryCount 0 w in
    fst out = Resolved v
    /\ sent (snd out) = sent w ++ [cfg; cfg]
    /\ sleeps (snd out) = sleeps w ++ [2000].
Proof.
  intros isNet work baseURL endpoint data headers retryCount w r v cfg Hn Hw Hs
         (r1 & Hw1 & Hok & Hv) out.
  set (o := mkRetryConfig retryCount (RestUtility.retryCondition isNet)
                          RestUtility.retryDelay).
  assert (Hin : forall rep, inTime (timeout cfg) rep) by (intros rep; left; simpl; lia).
  pose proof (dispatch_server_failure work cfg w r Hw Hs (Hin _)) as D0.
  set (w1 := sleep (RestUtility.retryDelay 1)
               {| clock := clock w + took (work (length (sent w)) cfg);
                  sent := sent w ++ [cfg]; sleeps := sleeps w |}).
  assert (L1 : length (sent w1) = S (length (sent w))).
  { simpl. rewrite length_app. simpl. lia. }
  assert (D1 := dispatch_success work cfg w1 r1).
  rewrite L1 in D1. specialize (D1 Hw1 Hok (Hin _)).
  destruct (Z.to_nat retryCount) as [|left] eqn:El; [lia|].
  assert (Hrun : request work (RestUtility.applyRetry isNet true retryCount
                                 (RestUtility.newInstance baseURL 0)) cfg w
                 = (Resolved r1,
                    {| clock := clock w1 + took (work (S (length (sent w))) cfg);
                       sent := sent w1 ++ [cfg]; sleeps := sleeps w1 |})).
  { change (retrying work o (Z.to_nat retryCount) 0 cfg w
            = (Resolved r1,
               {| clock := clock w1 + took (work (S (length (sent w))) cfg);
                  sent := sent w1 ++ [cfg]; sleeps := sleeps w1 |})).
    rewrite El.
    rewrite (retrying_again work o left 0 cfg w _ _ D0
               (retryCondition_server isNet cfg _ r Hs)).
    change (retryDelay o (0 + 1)) with (RestUtility.retryDelay 1). fold w1.
    apply retrying_resolved. exact D1. }
  subst out. unfold RestUtility.post, RestUtility.send.
  change (mkConfig "post" (Axios.baseURL (defaults _)) endpoint (Some data) headers
            (Axios.timeout (defaults _))) with cfg.
  rewrite Hrun. simpl fst. simpl snd.
  split; [simpl; congruence|]. split.
  - simpl. rewrite <- app_assoc. reflexivity.
  - reflexivity.
Qed.

Lemma post_is_sent_again_after_a_server_error_witness :
  1 <= 1
  /\ length (sent (snd (RestUtility.post isNetworkOrIdempotentRequestError
                          (fun k cfg => Examples.flaky (S k) cfg)
                          Examples.api "/create" [("key", "value")] [] true 1 0 start)))
     = 2%nat.
Proof.
  split; [lia|].
  pose proof (post_is_sent_again_after_a_server_error isNetworkOrIdempotentRequestError
                (fun k cfg => Examples.flaky (S k) cfg)
                Examples.api "/create" [("key", "value")] [] 1 start
                {| status := 503; body := "busy" |} "ok") as H.
  destruct H as (_ & H & _).
  - lia.
  - reflexivity.
  - simpl. lia.
  - eexists. split; [reflexivity|]. split; reflexivity.
  - rewrite H. reflexivity.
Defined.

(** X5: the value the configured [retryDelay] computes doubles from one
    retry to the next and no cap is applied to it: for the retry numbers
    [n] with [1 <= n < 1014], where both [n] and [n + 1] give a finite
    double, the delay at [n + 1] is twice the delay at [n]; the delay at
    [n] is at least 2000 ms, at least 1000 ms times the retry number, and
    at least the delay of every earlier retry. *)
Theorem retryDelay_doubles_in_exact_range :
  forall n : Z,
    1 <= n < maxExactRetryNumber ->
    RestUtility.retryDelay (n + 1) = 2 * RestUtility.retryDelay n
    /\ RestUtility.retryDelay (n + 1) <= maxDouble
    /\ 2000 <= RestUtility.retryDelay n
    /\ 1000 * n <= RestUtility.retryDelay n
    /\ (forall m, 1 <= m <= n -> RestUtility.retryDelay m <= RestUtility.retryDelay n).
Proof.
  intros n [Hn Hmax]. unfold RestUtility.retryDelay.
  assert (Hgrow : forall k, 0 <= k -> k + 1 <= 2 ^ k).
  { intros k Hk. pattern k. apply natlike_ind; [reflexivity| |exact Hk].
    intros x Hx IH. rewrite Z.pow_succ_r by exact Hx. lia. }
  split; [|split; [|split; [|split]]].
  - rewrite Z.pow_add_r by lia. lia.
  - pose proof (Z.pow_le_mono_r 2 (n + 1) maxExactRetryNumber) as Hpow.
    assert (Htop : 2 ^ maxExactRetryNumber * 1000 <= maxDouble) by (vm_compute; discriminate).
    lia.
  - pose proof (Z.pow_le_mono_r 2 1 n) as H. change (2 ^ 1) with 2 in H. lia.
  - pose proof (Hgrow n). lia.
  - intros m Hm. pose proof (Z.pow_le_mono_r 2 m n). lia.
Qed.

Lemma retryDelay_doubles_in_exact_range_witness :
  1 <= 4 < maxExactRetryNumber
  /\ RestUtility.retryDelay (4 + 1) = 2 * RestUtility.retryDelay 4.
Proof.
  assert (H : 1 <= 4 < maxExactRetryNumber) by (unfold maxExactRetryNumber; lia).
  split; [exact H|]. apply (retryDelay_doubles_in_exact_range 4 H).
Defined.

Lemma guarded_sends_at_most_once mv work this cfg w :
  sentAtMostOnce cfg w (snd (BreakerRestUtility.guarded mv work this cfg w)).
Proof.
  unfold sentAtMostOnce, BreakerRestUtility.guarded, CircuitBreaker.fire.
  destruct (CircuitBreaker.allow _ _ _) as [[|] s1]; [|split; [left|]; reflexivity].
  unfold BreakerRestUtility.makeRequest, request, create. simpl interceptor. cbv iota.
  destruct (dispatch_sent work cfg w) as [Hs Hp].
  destruct (dispatch work cfg w) as [[r|e] w1]; simpl in Hs, Hp;
    destruct (_ && _); simpl; (split; [right|]; assumption).
Qed.

(** X6: in the class with the breaker the arguments [retry] and
    [retryCount] change nothing: [get], [post] and [put] give the same
    result, breaker state and world whatever they are, and a call sends its
    request at most once and never pauses. *)
Theorem breaker_class_ignores_the_retry_arguments :
  forall (isNet : AxiosError -> bool) (mv : Z) (work : Work)
         (this : BreakerRestUtility.RestUtility) (baseURL endpoint : string)
         (data headers : JsObject) (retry retry' : bool) (retryCount retryCount' timeout : Z)
         (w : World),
    (BreakerRestUtility.get isNet mv work this baseURL endpoint headers retry retryCount
                            timeout w
     = BreakerRestUtility.get isNet mv work this baseURL endpoint headers retry' retryCount'
                              timeout w
     /\ BreakerRestUtility.post isNet mv work this baseURL endpoint data headers retry
                                retryCount timeout w
        = BreakerRestUtility.post isNet mv work this baseURL endpoint data headers retry'
                                  retryCount' timeout w
     /\ BreakerRestUtility.put isNet mv work this baseURL endpoint data headers retry
                               retryCount timeout w
        = BreakerRestUtility.put isNet mv work this baseURL endpoint data headers retry'
                                 retryCount' timeout w)
    /\ sentAtMostOnce (mkConfig "get" baseURL endpoint None headers timeout) w
         (snd (BreakerRestUtility.get isNet mv work this baseURL endpoint headers retry
                                      retryCount timeout w))
    /\ sentAtMostOnce (mkConfig "post" baseURL endpoint (Some data) headers timeout) w
         (snd (BreakerRestUtility.post isNet mv work this baseURL endpoint data headers retry
                                       retryCount timeout w))
    /\ sentAtMostOnce (mkConfig "put" baseURL endpoint (Some data) headers timeout) w
         (snd (BreakerRestUtility.put isNet mv work this baseURL endpoint data headers retry
                                      retryCount timeout w)).
Proof.
  intros isNet mv work this baseURL endpoint data headers retry retry' retryCount retryCount'
         timeout w.
  split; [repeat split|].
  unfold BreakerRestUtility.get, BreakerRestUtility.post, BreakerRestUtility.put.
  repeat split; apply guarded_sends_at_most_once.
Qed.

(** ** More on the critical section *)

Section CreateOrderRuns.

Import OrderService.

Ltac unfold_createOrder :=
  unfold createOrder, tryCatchFinally, critical, handler, finalizer, processOrder,
    perform, redlock_acquire, assignLock, readLock, releases, fresh, logged,
    mbind, M_bind, bind, throw, ret; simpl.

Ltac cases env :=
  repeat match goal with
         | |- context [failure env ?t ?ev] => destruct (failure env t ev) eqn:?; simpl
         end.

Variables (env : Env) (orderId : string).

Let key := "order_lock:" +:+ orderId.

Lemma createOrder_work_under_lock :
  match acquired env [] [key] 30000 with
  | Rejected _ => List.filter isWork (trace (snd (createOrder orderId env fresh))) = []
  | Resolved l =>
      List.filter isWork (trace (snd (createOrder orderId env fresh))) = []
      \/ exists rest,
           trace (snd (createOrder orderId env fresh))
           = [RedlockAcquire [key] 30000;
              LoggerLog ("Acquired lock for order: " +:+ orderId);
              LoggerLog ("Processing order: " +:+ orderId);
              SetTimeout 5000] ++ rest
           /\ List.filter isWork rest = []
           /\ List.filter isRelease rest = [LockRelease l]
  end.
Proof.
  subst key. unfold_createOrder.
  destruct (acquired env [] ["order_lock:" +:+ orderId] 30000) as [l|e]; simpl; cases env;
    first [ reflexivity
          | left; reflexivity
          | right; eexists; split; [reflexivity|]; split; reflexivity ].
Qed.

Lemma createOrder_resolves_only_untroubled :
  fst (createOrder orderId env fresh) = Resolved tt ->
  exists l, acquired env [] [key] 30000 = Resolved l
            /\ trace (snd (createOrder orderId env fresh)) = untroubled orderId l.
Proof.
  subst key. unfold_createOrder.
  destruct (acquired env [] ["order_lock:" +:+ orderId] 30000) as [l|e]; simpl; cases env;
    intros H; try discriminate H; eauto.
Qed.

Lemma createOrder_untroubled l :
  (forall t ev, failure env t ev = None) ->
  acquired env [] [key] 30000 = Resolved l ->
  createOrder orderId env fresh
  = (Resolved tt, {| trace := untroubled orderId l; lock := Some l |}).
Proof.
  subst key. intros Hq Ha. unfold_createOrder. rewrite Ha. simpl.
  repeat (rewrite Hq; simpl). reflexivity.
Qed.

Lemma createOrder_logs_the_cause :
  match fst (critical orderId env fresh) with
  | Rejected cause =>
      List.filter isErrorLog (trace (snd (createOrder orderId env fresh)))
      = [LoggerError ("Failed to create order " +:+ orderId +:+ ":") cause]
  | Resolved _ =>
      List.filter isErrorLog (trace (snd (createOrder orderId env fresh))) = []
  end.
Proof.
  unfold_createOrder.
  destruct (acquired env [] ["order_lock:" +:+ orderId] 30000) as [l|e]; simpl; cases env;
    reflexivity.
Qed.

Lemma createOrder_release_error_wins l e :
  acquired env [] [key] 30000 = Resolved l ->
  (forall t, failure env t (LockRelease l) = Some e) ->
  fst (createOrder orderId env fresh) = Rejected e
  /\ last (trace (snd (createOrder orderId env fresh))) = Some (LockRelease l).
Proof.
  subst key. intros Ha Hr. unfold_createOrder. rewrite Ha. simpl.
  repeat match goal with
         | |- context [failure env ?t (LockRelease l)] => rewrite (Hr t); simpl
         | |- context [failure env ?t ?ev] => destruct (failure env t ev) eqn:?; simpl
         end; split; reflexivity.
Qed.

End CreateOrderRuns.

(** X7: the protected work of [createOrder] (its 5000 ms timer) runs only
    under the lock: never when [acquire] rejects, and otherwise at most
    once, after the acquisition, with the one [release] of the acquired lock
    after it, whatever throws on the way. *)
Theorem protected_work_runs_only_under_the_lock :
  forall (env : OrderService.Env) (orderId : string),
    let t := OrderService.trace (snd (OrderService.createOrder orderId env OrderService.fresh)) in
    match OrderService.acquired env [] ["order_lock:" +:+ orderId] 30000 with
    | Rejected _ => List.filter isWork t = []
    | Resolved l =>
        List.filter isWork t = []
        \/ exists rest,
             t = [OrderService.RedlockAcquire ["order_lock:" +:+ orderId] 30000;
                  OrderService.LoggerLog ("Acquired lock for order: " +:+ orderId);
                  OrderService.LoggerLog ("Processing order: " +:+ orderId);
                  OrderService.SetTimeout 5000] ++ rest
             /\ List.filter isWork rest = []
             /\ List.filter OrderService.isRelease rest = [OrderService.LockRelease l]
    end.
Proof. intros env orderId t. subst t. apply createOrder_work_under_lock. Qed.

(** X8: [createOrder] returns normally only when nothing threw: then the
    lock was acquired and the calls made are exactly acquire, the log lines,
    the timer, release and the final log line, in this order; and when no
    collaborator throws and the lock is granted, it does return normally. *)
Theorem createOrder_returns_only_after_an_untroubled_run :
  forall (env : OrderService.Env) (orderId : string),
    (fst (OrderService.createOrder orderId env OrderService.fresh) = Resolved tt ->
     exists l,
       OrderService.acquired env [] ["order_lock:" +:+ orderId] 30000 = Resolved l
       /\ OrderService.trace (snd (OrderService.createOrder orderId env OrderService.fresh))
          = untroubled orderId l)
    /\ (forall l,
          (forall t ev, OrderService.failure env t ev = None) ->
          OrderService.acquired env [] ["order_lock:" +:+ orderId] 30000 = Resolved l ->
          OrderService.createOrder orderId env OrderService.fresh
          = (Resolved tt, OrderService.mkFrame (untroubled orderId l) (Some l))).
Proof.
  intros env orderId. split.
  - apply createOrder_resolves_only_untroubled.
  - intros l Hq Ha. apply createOrder_untroubled; assumption.
Qed.

Lemma createOrder_returns_only_after_an_untroubled_run_witness :
  fst (OrderService.createOrder "42" Scenarios.calm OrderService.fresh) = Resolved tt
  /\ exists l,
       OrderService.trace (snd (OrderService.createOrder "42" Scenarios.calm
                                  OrderService.fresh))
       = untroubled "42" l.
Proof.
  split; [reflexivity|].
  destruct (proj1 (createOrder_returns_only_after_an_untroubled_run Scenarios.calm "42")
                  eq_refl) as (l & _ & H).
  exists l. exact H.
Defined.

(** X9: when the critical section of [createOrder] fails, the failure is
    written to the error log exactly once, with the message
    "Failed to create order <id>:" and the error that was caught; when it
    succeeds nothing is written to the error log. *)
Theorem createOrder_logs_the_caught_error_once :
  forall (env : OrderService.Env) (orderId : string),
    match fst (OrderService.critical orderId env OrderService.fresh) with
    | Rejected cause =>
        List.filter isErrorLog
          (OrderService.trace (snd (OrderService.createOrder orderId env OrderService.fresh)))
        = [OrderService.LoggerError ("Failed to create order " +:+ orderId +:+ ":") cause]
    | Resolved _ =>
        List.filter isErrorLog
          (OrderService.trace (snd (OrderService.createOrder orderId env OrderService.fresh)))
        = []
    end.
Proof. intros env orderId. apply createOrder_logs_the_cause. Qed.

(** X10: an exception of [lock.release()] replaces the outcome of
    [createOrder]: if the lock was acquired and [release] throws [e], then
    [createOrder] throws [e], whether the work had succeeded or the catch
    block had thrown its own error, and the line "Released lock" is not
    logged ([release] is the last call made). *)
Theorem release_error_replaces_the_outcome :
  forall (env : OrderService.Env) (orderId : string) (l : OrderService.Lock) (e : JsError),
    OrderService.acquired env [] ["order_lock:" +:+ orderId] 30000 = Resolved l ->
    (forall t, OrderService.failure env t (OrderService.LockRelease l) = Some e) ->
    fst (OrderService.createOrder orderId env OrderService.fresh) = Rejected e
    /\ last (OrderService.trace (snd (OrderService.createOrder orderId env OrderService.fresh)))
       = Some (OrderService.LockRelease l).
Proof. intros env orderId l e. apply createOrder_release_error_wins. Qed.

Lemma release_error_replaces_the_outcome_witness :
  OrderService.acquired Scenarios.releaseFails [] ["order_lock:" +:+ "42"] 30000
  = Resolved (Scenarios.granted ["order_lock:42"])
  /\ fst (OrderService.createOrder "42" Scenarios.releaseFails OrderService.fresh)
     = Rejected LockReleaseError.
Proof.
  split; [reflexivity|].
  apply (release_error_replaces_the_outcome Scenarios.releaseFails "42"
           (Scenarios.granted ["order_lock:42"]) LockReleaseError eq_refl).
  intros t. reflexivity.
Defined.

(** X11: [createOrder] asks for one lock, on the key "order_lock:<id>", for
    30000 ms, and the key tells the order: two calls ask for the same key
    exactly when they are for the same order id. *)
Theorem lock_key_identifies_the_order :
  forall (env env' : OrderService.Env) (orderId orderId' : string),
    head (OrderService.trace (snd (OrderService.createOrder orderId env OrderService.fresh)))
    = Some (OrderService.RedlockAcquire ["order_lock:" +:+ orderId] 30000)
    /\ (head (OrderService.trace (snd (OrderService.createOrder orderId env
                                         OrderService.fresh)))
        = head (OrderService.trace (snd (OrderService.createOrder orderId' env'
                                           OrderService.fresh)))
        <-> orderId = orderId').
Proof.
  intros env env' orderId orderId'.
  split; [apply createOrder_starts_with_acquire|].
  rewrite !createOrder_starts_with_acquire. split.
  - intros H. simpl in H. injection H as H. exact H.
  - intros ->. reflexivity.
Qed.

(** ** RedisService *)

(** X12: [onModuleDestroy] after [onModuleInit] closes the client that this
    [onModuleInit] created (localhost:6379, with listeners for connect and
    error), logs "Disconnected from Redis" once, and touches no other
    client: a client created by an earlier [onModuleInit] of the same
    service is no longer referenced and stays open. *)
Theorem destroy_closes_only_the_client_of_the_last_init :
  forall (quitError : RedisService.Heap -> nat -> option JsError)
         (this : RedisService.RedisService) (h : RedisService.Heap),
    let ref := length (RedisService.clients h) in
    let s1 := fst (RedisService.onModuleInit this h) in
    let h1 := snd (RedisService.onModuleInit this h) in
    quitError h1 ref = None ->
    RedisService.getClient s1 = Some ref
    /\ RedisService.clients h1 !! ref
       = Some (RedisService.mkClient "localhost" 6379 ["connect"; "error"] false)
    /\ fst (RedisService.onModuleDestroy quitError s1 h1) = Resolved tt
    /\ (let h2 := snd (RedisService.onModuleDestroy quitError s1 h1) in
        RedisService.clients h2 !! ref
        = Some (RedisService.mkClient "localhost" 6379 ["connect"; "error"] true)
        /\ (forall i, (i < ref)%nat ->
                      RedisService.clients h2 !! i = RedisService.clients h !! i)
        /\ RedisService.logged h2 = RedisService.logged h ++ ["Disconnected from Redis"]).
Proof.
  intros quitError this h ref s1 h1 Hq.
  assert (Hnew : RedisService.clients h1 !! ref
                 = Some (RedisService.mkClient "localhost" 6379 ["connect"; "error"] false)).
  { subst h1 ref. simpl. apply list_lookup_middle. reflexivity. }
  split; [reflexivity|]. split; [exact Hnew|].
  assert (Hold : forall i, (i < ref)%nat ->
                           RedisService.clients h1 !! i = RedisService.clients h !! i).
  { intros i Hi. subst h1. simpl. apply lookup_app_l. exact Hi. }
  assert (Hlog : RedisService.logged h1 = RedisService.logged h) by reflexivity.
  clearbody h1.
  assert (Hd : RedisService.onModuleDestroy quitError s1 h1
               = (Resolved tt,
                  RedisService.mkHeap
                    (alter RedisService.close ref (RedisService.clients h1))
                    (RedisService.logged h1 ++ ["Disconnected from Redis"]))).
  { unfold RedisService.onModuleDestroy.
    change (RedisService.redisClient s1) with (Some ref). cbv beta iota.
    rewrite Hq. reflexivity. }
  rewrite Hd. simpl fst. simpl snd. split; [reflexivity|]. split; [|split].
  - simpl RedisService.clients. rewrite list_lookup_alter_eq, Hnew. reflexivity.
  - intros i Hi. simpl RedisService.clients.
    rewrite list_lookup_alter_ne by lia. apply Hold. exact Hi.
  - simpl. rewrite Hlog. reflexivity.
Qed.

Lemma destroy_closes_only_the_client_of_the_last_init_witness :
  (fun _ _ => None) (snd (RedisService.onModuleInit RedisService.constructor
                            (RedisService.mkHeap [] []))) 0%nat = @None JsError
  /\ RedisService.logged
       (snd (RedisService.onModuleDestroy (fun _ _ => None)
               (fst (RedisService.onModuleInit RedisService.constructor
                       (RedisService.mkHeap [] [])))
               (snd (RedisService.onModuleInit RedisService.constructor
                       (RedisService.mkHeap [] [])))))
     = ["Disconnected from Redis"].
Proof.
  split; [reflexivity|].
  apply (destroy_closes_only_the_client_of_the_last_init (fun _ _ => None)
           RedisService.constructor (RedisService.mkHeap [] []) eq_refl).
Defined.

(** X13: the order of the lifecycle calls matters.  Before [onModuleInit],
    [getClient] returns [undefined] and [onModuleDestroy] throws a
    TypeError, closing and logging nothing.  An [OrderService] constructed
    before [onModuleInit] builds its Redlock over [undefined], and a later
    [onModuleInit], which makes [getClient] return a client, does not change
    that; constructed after it, the Redlock holds the client that
    [getClient] returns. *)
Theorem redlock_holds_what_getClient_returned_at_construction :
  forall (quitError : RedisService.Heap -> nat -> option JsError) (h : RedisService.Heap),
    let early := RedisService.OrderService_constructor RedisService.constructor in
    let s1 := fst (RedisService.onModuleInit RedisService.constructor h) in
    let late := RedisService.OrderService_constructor s1 in
    RedisService.getClient RedisService.constructor = None
    /\ (exists e, RedisService.onModuleDestroy quitError RedisService.constructor h
                  = (Rejected (RuntimeError e), h))
    /\ RedisService.servers early = [None]
    /\ RedisService.getClient s1 = Some (length (RedisService.clients h))
    /\ RedisService.servers early <> [RedisService.getClient s1]
    /\ RedisService.servers late = [RedisService.getClient s1].
Proof.
  intros quitError h early s1 late.
  split; [reflexivity|]. split; [eexists; reflexivity|].
  split; [reflexivity|]. split; [reflexivity|]. split; [discriminate | reflexivity].
Qed.

(** ** Parameter binding *)

Section PathFacts.

Import DynamicBinding.

Lemma split_nonempty sep s : split sep s <> [].
Proof.
  destruct s as [|c s]; simpl; [discriminate|].
  destruct (bool_decide (c = sep)); [discriminate|].
  destruct (split sep s); discriminate.
Qed.

(** Splitting at the separator that joins two paths. *)
Lemma split_join sep p q : split sep (p +:+ String sep q) = split sep p ++ split sep q.
Proof.
  induction p as [|c p IH]; simpl.
  - rewrite bool_decide_eq_true_2 by reflexivity. reflexivity.
  - destruct (bool_decide (c = sep)).
    + rewrite IH. reflexivity.
    + rewrite IH. pose proof (split_nonempty sep p) as Hne.
      destruct (split sep p) as [|part parts]; [contradiction|]. reflexivity.
Qed.

Lemma split_noDot s : noDot s = true -> split "."%char s = [s].
Proof.
  unfold noDot. induction s as [|c s IH]; simpl; [reflexivity|].
  intros H. apply andb_true_iff in H as [Hc Hs].
  apply negb_true_iff in Hc. rewrite Hc, (IH Hs). reflexivity.
Qed.

Variable builtin : Value -> string -> Value.

Lemma descend_falsy v parts :
  truthy v = false -> fold_left (descend builtin) parts v = v.
Proof.
  intros Hv. induction parts as [|part parts IH]; simpl; [reflexivity|].
  unfold descend at 2. rewrite Hv. exact IH.
Qed.

Lemma element_index (items : list Value) (i : nat) (x : Value) :
  items !! i = Some x -> element items (pretty i) = Some x.
Proof.
  intros Hi. unfold element.
  assert (Hlt : (i < length items)%nat) by (eapply lookup_lt_Some; exact Hi).
  assert (Hf : list_find (fun j : nat => pretty j = pretty i) (seq 0 (length items))
               = Some (i, i)).
  { apply list_find_Some. split; [apply lookup_seq_lt; exact Hlt|].
    split; [reflexivity|].
    intros j y Hj Hlt' Heq. apply lookup_seq in Hj as [-> _]. simpl in Heq.
    apply (inj pretty) in Heq. lia. }
  rewrite Hf. exact Hi.
Qed.

Lemma element_beyond (items : list Value) (i : nat) :
  (length items <= i)%nat -> element items (pretty i) = None.
Proof.
  intros Hi. unfold element.
  destruct (list_find _ _) as [[j y]|] eqn:Hf; [|reflexivity].
  apply list_find_Some in Hf as (Hj & Heq & _).
  apply lookup_seq in Hj as [-> Hlt]. simpl in Heq. apply (inj pretty) in Heq. lia.
Qed.

End PathFacts.

Lemma getFromPayload_join builtin p q obj :
  DynamicBinding.getFromPayload builtin (p +:+ "." +:+ q) obj
  = DynamicBinding.getFromPayload builtin q (DynamicBinding.getFromPayload builtin p obj).
Proof.
  unfold DynamicBinding.getFromPayload.
  change ("." +:+ q) with (String "."%char q).
  rewrite split_join, fold_left_app. reflexivity.
Qed.

Lemma getFromPayload_step builtin k v :
  noDot k = true ->
  DynamicBinding.getFromPayload builtin k v = DynamicBinding.descend builtin v k.
Proof. intros H. unfold DynamicBinding.getFromPayload. rewrite split_noDot by exact H. reflexivity. Qed.

(** X14: a path is followed step by step: [getFromPayload] of ["p.q"] is
    [getFromPayload] of ["q"] on what ["p"] gives.  A falsy value met on the
    way (0, the empty string, false, null, undefined) ends the descent and
    is itself the result, so a path through a field that holds 0 yields 0,
    not undefined. *)
Theorem getFromPayload_follows_the_path_step_by_step :
  forall (builtin : DynamicBinding.Value -> string -> DynamicBinding.Value)
         (p q : string) (obj v : DynamicBinding.Value),
    DynamicBinding.getFromPayload builtin (p +:+ "." +:+ q) obj
    = DynamicBinding.getFromPayload builtin q (DynamicBinding.getFromPayload builtin p obj)
    /\ (DynamicBinding.truthy v = false -> DynamicBinding.getFromPayload builtin q v = v)
    /\ (DynamicBinding.truthy (DynamicBinding.getFromPayload builtin p obj) = false ->
        DynamicBinding.getFromPayload builtin (p +:+ "." +:+ q) obj
        = DynamicBinding.getFromPayload builtin p obj).
Proof.
  intros builtin p q obj v.
  pose proof (getFromPayload_join builtin p q obj) as Hc.
  split; [exact Hc|]. split.
  - intros Hv. apply descend_falsy. exact Hv.
  - intros Hv. rewrite Hc. apply descend_falsy. exact Hv.
Qed.

Lemma getFromPayload_follows_the_path_step_by_step_witness :
  DynamicBinding.getFromPayload Scenarios.prototypes ("order" +:+ "." +:+ "id")
                                Scenarios.messagePayload
  = DynamicBinding.VNum 1234
  /\ DynamicBinding.getFromPayload Scenarios.prototypes ("a" +:+ "." +:+ "b")
       (DynamicBinding.VObj {[ "a" := DynamicBinding.VNum 0 ]})
     = DynamicBinding.VNum 0.
Proof.
  split.
  - rewrite (proj1 (getFromPayload_follows_the_path_step_by_step Scenarios.prototypes
                      "order" "id" Scenarios.messagePayload DynamicBinding.VNull)).
    vm_compute. reflexivity.
  - rewrite (proj2 (proj2 (getFromPayload_follows_the_path_step_by_step Scenarios.prototypes
                             "a" "b" (DynamicBinding.VObj {[ "a" := DynamicBinding.VNum 0 ]})
                             DynamicBinding.VNull)));
      vm_compute; reflexivity.
Defined.

Lemma pretty_N_go_allDigits (x : N) :
  forall s, allDigits s = true -> allDigits (pretty_N_go x s) = true.
Proof.
  induction (N.lt_wf_0 x) as [x _ IH]. intros s Hs.
  assert (Hx : (x = 0 \/ 0 < x)%N) by lia. destruct Hx as [->|Hx].
  - rewrite pretty_N_go_0. exact Hs.
  - rewrite pretty_N_go_step by exact Hx. apply IH.
    + apply N.div_lt; [exact Hx | reflexivity].
    + unfold allDigits in *. simpl. rewrite Hs, andb_true_r.
      unfold pretty_N_char. repeat case_match; reflexivity.
Qed.

Lemma pretty_nat_allDigits (i : nat) : allDigits (pretty i) = true.
Proof.
  unfold pretty, pretty_nat, pretty, pretty_N.
  destruct (decide (N.of_nat i = 0%N)); [reflexivity|].
  apply pretty_N_go_allDigits. reflexivity.
Qed.

Lemma allDigits_noDot (s : string) : allDigits s = true -> noDot s = true.
Proof.
  unfold allDigits, noDot. induction (String.list_ascii_of_string s) as [|c l IH]; simpl;
    [reflexivity|].
  intros H. apply andb_true_iff in H as [Hc Hl]. rewrite (IH Hl), andb_true_r.
  apply negb_true_iff, bool_decide_eq_false. intros ->. discriminate Hc.
Qed.

Lemma pretty_nat_not_length (i : nat) : pretty i <> "length".
Proof.
  intros H. pose proof (pretty_nat_allDigits i) as Hd. rewrite H in Hd. discriminate Hd.
Qed.

Lemma element_length (items : list DynamicBinding.Value) :
  DynamicBinding.element items "length" = None.
Proof.
  unfold DynamicBinding.element.
  destruct (list_find _ _) as [[j y]|] eqn:Hf; [|reflexivity].
  apply list_find_Some in Hf as (_ & Heq & _).
  exfalso. exact (pretty_nat_not_length y Heq).
Qed.

(** X15: own data properties are found by name, and a missing one is no
    error.  For a property name [k] without a dot, the path [k] on an object
    gives the value stored under [k], and ["k.q"] continues from it; when
    the object has no [k] (own or inherited) both [k] and every longer path
    ["k.q"] give [undefined], without an exception. *)
Theorem getFromPayload_reads_own_properties :
  forall (builtin : DynamicBinding.Value -> string -> DynamicBinding.Value)
         (fields : gmap string DynamicBinding.Value) (k q : string) (v : DynamicBinding.Value),
    noDot k = true ->
    DynamicBinding.getFromPayload builtin k (DynamicBinding.VObj (<[k := v]> fields)) = v
    /\ DynamicBinding.getFromPayload builtin (k +:+ "." +:+ q)
         (DynamicBinding.VObj (<[k := v]> fields))
       = DynamicBinding.getFromPayload builtin q v
    /\ (fields !! k = None ->
        builtin (DynamicBinding.VObj fields) k = DynamicBinding.VUndefined ->
        DynamicBinding.getFromPayload builtin k (DynamicBinding.VObj fields)
        = DynamicBinding.VUndefined
        /\ DynamicBinding.getFromPayload builtin (k +:+ "." +:+ q) (DynamicBinding.VObj fields)
           = DynamicBinding.VUndefined).
Proof.
  intros builtin fields k q v Hk.
  assert (H1 : DynamicBinding.getFromPayload builtin k
                 (DynamicBinding.VObj (<[k := v]> fields)) = v).
  { rewrite getFromPayload_step by exact Hk.
    unfold DynamicBinding.descend, DynamicBinding.access. simpl.
    rewrite lookup_insert_eq. reflexivity. }
  split; [exact H1|]. split.
  - rewrite getFromPayload_join, H1. reflexivity.
  - intros Hnone Hb.
    assert (H2 : DynamicBinding.getFromPayload builtin k (DynamicBinding.VObj fields)
                 = DynamicBinding.VUndefined).
    { rewrite getFromPayload_step by exact Hk.
      unfold DynamicBinding.descend, DynamicBinding.access. simpl.
      rewrite Hnone. exact Hb. }
    split; [exact H2|].
    rewrite getFromPayload_join, H2. apply descend_falsy. reflexivity.
Qed.

Lemma getFromPayload_reads_own_properties_witness :
  noDot "shipping" = true
  /\ DynamicBinding.getFromPayload Scenarios.prototypes ("shipping" +:+ "." +:+ "address.city")
       Scenarios.messagePayload
     = DynamicBinding.VUndefined.
Proof.
  split; [reflexivity|].
  apply (getFromPayload_reads_own_properties Scenarios.prototypes _ "shipping" "address.city"
           DynamicBinding.VNull eq_refl); vm_compute; reflexivity.
Defined.

(** X16: elements of an array are addressed by their decimal index.  When
    the path [p] leads to an array, ["p.<i>"] gives its [i]-th element and
    ["p.length"] its length. *)
Theorem getFromPayload_indexes_arrays :
  forall (builtin : DynamicBinding.Value -> string -> DynamicBinding.Value)
         (p : string) (obj : DynamicBinding.Value) (items : list DynamicBinding.Value)
         (i : nat) (x : DynamicBinding.Value),
    DynamicBinding.getFromPayload builtin p obj = DynamicBinding.VArr items ->
    items !! i = Some x ->
    DynamicBinding.getFromPayload builtin (p +:+ "." +:+ pretty i) obj = x
    /\ DynamicBinding.getFromPayload builtin (p +:+ "." +:+ "length") obj
       = DynamicBinding.VNum (Z.of_nat (length items)).
Proof.
  intros builtin p obj items i x Hp Hi. split.
  - rewrite getFromPayload_join, Hp.
    rewrite getFromPayload_step by (apply allDigits_noDot, pretty_nat_allDigits).
    unfold DynamicBinding.descend, DynamicBinding.access. simpl.
    rewrite (element_index items i x Hi). reflexivity.
  - rewrite getFromPayload_join, Hp.
    rewrite getFromPayload_step by reflexivity.
    unfold DynamicBinding.descend, DynamicBinding.access. simpl.
    rewrite element_length. reflexivity.
Qed.

Lemma getFromPayload_indexes_arrays_witness :
  DynamicBinding.getFromPayload Scenarios.prototypes "items"
    (DynamicBinding.VObj
       {[ "items" := DynamicBinding.VArr [DynamicBinding.VStr "a"; DynamicBinding.VStr "b"] ]})
  = DynamicBinding.VArr [DynamicBinding.VStr "a"; DynamicBinding.VStr "b"]
  /\ DynamicBinding.getFromPayload Scenarios.prototypes ("items" +:+ "." +:+ pretty 1%nat)
       (DynamicBinding.VObj
          {[ "items" := DynamicBinding.VArr [DynamicBinding.VStr "a";
                                            DynamicBinding.VStr "b"] ]})
     = DynamicBinding.VStr "b".
Proof.
  split; [vm_compute; reflexivity|].
  apply (getFromPayload_indexes_arrays Scenarios.prototypes "items" _
           [DynamicBinding.VStr "a"; DynamicBinding.VStr "b"] 1 (DynamicBinding.VStr "b"));
    [vm_compute; reflexivity | reflexivity].
Defined.

Section ApiFacts.

Import DynamicBinding.

Variable builtin : Value -> string -> Value.
Variable inheritedName : string -> bool.
Variable substitute : Template -> Value -> Result JsError Value.
Variable answer : list Call -> Call -> Result JsError Value.
Variable parameters : gmap string ParameterConfig.

Abbreviation fetchValue := (DynamicBinding.fetchValue builtin substitute answer).
Abbreviation getFromAPI := (DynamicBinding.getFromAPI builtin substitute answer).
Abbreviation getParameterValue :=
  (DynamicBinding.getParameterValue builtin inheritedName substitute answer parameters).

Lemma fetchValue_net pc messagePayload n :
  consoleErrors (snd (fetchValue pc messagePayload n)) = consoleErrors n
  /\ exists cs, calls (snd (fetchValue pc messagePayload n)) = calls n ++ cs
                /\ called substitute pc messagePayload cs.
Proof.
  assert (Hnone : called substitute pc messagePayload []) by (left; reflexivity).
  unfold DynamicBinding.fetchValue, fetch.
  destruct (bool_decide (method pc = Some "GET")) eqn:Eg.
  - apply bool_decide_eq_true in Eg.
    destruct (resolveDynamicData substitute (queryParams pc) messagePayload) as [q|e] eqn:Eq.
    + assert (Hcs : exists cs,
                 calls n ++ [mkCall "get" (render (hostname pc) +:+ render (endpoint pc)) q]
                 = calls n ++ cs
                 /\ called substitute pc messagePayload cs).
      { eexists. split; [reflexivity|]. right. left. exists q. auto. }
      destruct (answer (calls n) _) as [data|e]; [|split; [reflexivity | exact Hcs]].
      repeat case_match; simpl; (split; [reflexivity | exact Hcs]).
    + split; [reflexivity|]. exists []. rewrite app_nil_r. auto.
  - destruct (bool_decide (method pc = Some "POST")) eqn:Ep.
    + apply bool_decide_eq_true in Ep.
      destruct (resolveDynamicData substitute (requestBody pc) messagePayload) as [b|e] eqn:Eb.
      * assert (Hcs : exists cs,
                 calls n ++ [mkCall "post" (render (hostname pc) +:+ render (endpoint pc)) b]
                 = calls n ++ cs
                 /\ called substitute pc messagePayload cs).
        { eexists. split; [reflexivity|]. right. right. exists b. auto. }
        destruct (answer (calls n) _) as [data|e]; [|split; [reflexivity | exact Hcs]].
        repeat case_match; simpl; (split; [reflexivity | exact Hcs]).
      * split; [reflexivity|]. exists []. rewrite app_nil_r. auto.
    + split; [reflexivity|]. exists []. rewrite app_nil_r. auto.
Qed.

Lemma getFromAPI_net pc messagePayload n :
  (exists cs, newCalls n (snd (getFromAPI pc messagePayload n)) cs
              /\ called substitute pc messagePayload cs)
  /\ match fst (getFromAPI pc messagePayload n) with
     | Resolved _ => newErrors n (snd (getFromAPI pc messagePayload n)) []
     | Rejected e =>
         newErrors n (snd (getFromAPI pc messagePayload n))
           [("Error fetching external value for " +:+ render (endpoint pc) +:+ ":", e)]
     end.
Proof.
  destruct (fetchValue_net pc messagePayload n) as (He & cs & Hc & Hcalled).
  unfold DynamicBinding.getFromAPI, newCalls, newErrors.
  destruct (fetchValue pc messagePayload n) as [[v|e] n1]; simpl in *.
  - split; [eauto|]. rewrite He, app_nil_r. reflexivity.
  - split; [eauto|]. rewrite He. reflexivity.
Qed.

End ApiFacts.

Lemma find_outcome builtin k fv items :
  match DynamicBinding.find builtin k fv items with
  | Resolved v =>
      (v = DynamicBinding.VUndefined /\ noneMatches builtin k fv items)
      \/ (exists before after x,
            items = before ++ v :: after
            /\ noneMatches builtin k fv before
            /\ DynamicBinding.getProp builtin v k = Some x
            /\ DynamicBinding.strictEq x fv = true)
  | Rejected e =>
      e = DynamicBinding.typeError
      /\ exists before item after,
           items = before ++ item :: after
           /\ noneMatches builtin k fv before
           /\ DynamicBinding.getProp builtin item k = None
  end.
Proof.
  assert (Hnil : noneMatches builtin k fv []).
  { intros item Hin. apply elem_of_nil in Hin. contradiction. }
  assert (Hcons : forall item x rest,
             DynamicBinding.getProp builtin item k = Some x ->
             DynamicBinding.strictEq x fv = false ->
             noneMatches builtin k fv rest -> noneMatches builtin k fv (item :: rest)).
  { intros item x rest Hx Hne Hrest y Hin. apply elem_of_cons in Hin as [->|Hin]; eauto. }
  induction items as [|item rest IH]; simpl.
  - left. auto.
  - destruct (DynamicBinding.getProp builtin item k) as [x|] eqn:Hx.
    + destruct (DynamicBinding.strictEq x fv) eqn:Heq.
      * right. exists [], rest, x. auto.
      * destruct (DynamicBinding.find builtin k fv rest) as [v|e].
        -- destruct IH as [[-> Hn]|(before & after & y & -> & Hn & Hy & Hm)].
           ++ left. eauto.
           ++ right. exists (item :: before), after, y. eauto.
        -- destruct IH as (-> & before & it & after & -> & Hn & Hnone).
           split; [reflexivity|]. exists (item :: before), it, after. eauto.
    + split; [reflexivity|]. exists [], item, rest. auto.
Qed.

(** X17: a call of [getParameterValue] makes at most one HTTP call, and
    only for a parameter whose source is "api": a GET or a POST, by the
    method configured, to [hostname] followed by [endpoint], carrying the
    resolved query parameters or body. *)
Theorem getParameterValue_calls_out_at_most_once :
  forall (builtin : DynamicBinding.Value -> string -> DynamicBinding.Value)
         (inheritedName : string -> bool)
         (substitute : DynamicBinding.Template -> DynamicBinding.Value
                       -> Result JsError DynamicBinding.Value)
         (answer : list DynamicBinding.Call -> DynamicBinding.Call
                   -> Result JsError DynamicBinding.Value)
         (parameters : gmap string DynamicBinding.ParameterConfig)
         (paramName : string) (messagePayload : DynamicBinding.Value) (n : DynamicBinding.Net),
    let out := DynamicBinding.getParameterValue builtin inheritedName substitute answer
                 parameters paramName messagePayload n in
    exists cs,
      newCalls n (snd out) cs
      /\ (length cs <= 1)%nat
      /\ (cs = []
          \/ exists pc, parameters !! paramName = Some pc
                        /\ DynamicBinding.source pc = "api"
                        /\ called substitute pc messagePayload cs).
Proof.
  intros builtin inheritedName substitute answer parameters paramName messagePayload n out.
  assert (Hnone : forall r : Result JsError DynamicBinding.Value,
                    newCalls n (snd (r, n)) [] /\ (length (@nil DynamicBinding.Call) <= 1)%nat
                            /\ (@nil DynamicBinding.Call = []
                                \/ exists pc, parameters !! paramName = Some pc
                                   /\ DynamicBinding.source pc = "api"
                                   /\ called substitute pc messagePayload []))
      by (intros r; unfold newCalls; simpl; rewrite app_nil_r; auto).
  subst out. unfold DynamicBinding.getParameterValue.
  destruct (parameters !! paramName) as [pc|] eqn:Hp.
  - destruct (bool_decide (DynamicBinding.source pc = "payload")).
    + destruct (DynamicBinding.path pc); exists []; apply Hnone.
    + destruct (bool_decide (DynamicBinding.source pc = "api")) eqn:Ha.
      * apply bool_decide_eq_true in Ha.
        destruct (getFromAPI_net builtin substitute answer pc messagePayload n)
          as ((cs & Hc & Hcalled) & _).
        exists cs. split; [exact Hc|]. split.
        -- destruct Hcalled as [->|[(q & _ & _ & ->)|(b & _ & _ & ->)]]; simpl; lia.
        -- right. exists pc. auto.
      * exists []. apply Hnone.
  - destruct (inheritedName paramName); exists []; apply Hnone.
Qed.

(** X18: [getFromAPI] reports every failure once and passes it on
    unchanged: when it rejects with [e], exactly one entry
    ("Error fetching external value for <endpoint>:", [e]) was written with
    [console.error], whichever step failed; when it resolves nothing was
    written.  [getParameterValue] writes nothing for a parameter that is not
    an "api" parameter. *)
Theorem getFromAPI_logs_each_failure_once :
  forall (builtin : DynamicBinding.Value -> string -> DynamicBinding.Value)
         (inheritedName : string -> bool)
         (substitute : DynamicBinding.Template -> DynamicBinding.Value
                       -> Result JsError DynamicBinding.Value)
         (answer : list DynamicBinding.Call -> DynamicBinding.Call
                   -> Result JsError DynamicBinding.Value)
         (parameters : gmap string DynamicBinding.ParameterConfig)
         (pc : DynamicBinding.ParameterConfig) (paramName : string)
         (messagePayload : DynamicBinding.Value) (n : DynamicBinding.Net),
    (let out := DynamicBinding.getFromAPI builtin substitute answer pc messagePayload n in
     match fst out with
     | Resolved _ => newErrors n (snd out) []
     | Rejected e =>
         newErrors n (snd out)
           [("Error fetching external value for "
             +:+ DynamicBinding.render (DynamicBinding.endpoint pc) +:+ ":", e)]
     end)
    /\ ((forall pc', parameters !! paramName = Some pc' -> DynamicBinding.source pc' <> "api") ->
        newErrors n
          (snd (DynamicBinding.getParameterValue builtin inheritedName substitute answer
                  parameters paramName messagePayload n)) []).
Proof.
  intros builtin inheritedName substitute answer parameters pc paramName messagePayload n.
  split.
  - apply (getFromAPI_net builtin substitute answer pc messagePayload n).
  - intros Hlocal. unfold DynamicBinding.getParameterValue, newErrors.
    destruct (parameters !! paramName) as [pc'|] eqn:Hp.
    + destruct (bool_decide (DynamicBinding.source pc' = "payload")).
      * destruct (DynamicBinding.path pc'); simpl; rewrite app_nil_r; reflexivity.
      * destruct (bool_decide (DynamicBinding.source pc' = "api")) eqn:Ha.
        -- apply bool_decide_eq_true in Ha. exfalso. exact (Hlocal pc' eq_refl Ha).
        -- simpl. rewrite app_nil_r. reflexivity.
    + destruct (inheritedName paramName); simpl; rewrite app_nil_r; reflexivity.
Qed.

(** X19: the method name is compared as written.  For a method other than
    "GET" and "POST" (a missing one, or "get" in lower case) [getFromAPI]
    makes no HTTP call and rejects with
    [Error("Unsupported HTTP method: <method>")], after logging it. *)
Theorem getFromAPI_rejects_other_methods :
  forall (builtin : DynamicBinding.Value -> string -> DynamicBinding.Value)
         (substitute : DynamicBinding.Template -> DynamicBinding.Value
                       -> Result JsError DynamicBinding.Value)
         (answer : list DynamicBinding.Call -> DynamicBinding.Call
                   -> Result JsError DynamicBinding.Value)
         (pc : DynamicBinding.ParameterConfig) (messagePayload : DynamicBinding.Value)
         (n : DynamicBinding.Net),
    DynamicBinding.method pc <> Some "GET" ->
    DynamicBinding.method pc <> Some "POST" ->
    let e := Error ("Unsupported HTTP method: "
                    +:+ DynamicBinding.render (DynamicBinding.method pc)) in
    DynamicBinding.getFromAPI builtin substitute answer pc messagePayload n
    = (Rejected e,
       DynamicBinding.mkNet
         (DynamicBinding.calls n)
         (DynamicBinding.consoleErrors n
          ++ [("Error fetching external value for "
               +:+ DynamicBinding.render (DynamicBinding.endpoint pc) +:+ ":", e)])).
Proof.
  intros builtin substitute answer pc messagePayload n Hg Hp e.
  unfold DynamicBinding.getFromAPI, DynamicBinding.fetchValue.
  rewrite (bool_decide_eq_false_2 _ Hg), (bool_decide_eq_false_2 _ Hp). reflexivity.
Qed.

Lemma getFromAPI_rejects_other_methods_witness :
  DynamicBinding.method Scenarios.lowerCaseGet <> Some "GET"
  /\ DynamicBinding.method Scenarios.lowerCaseGet <> Some "POST"
  /\ fst (DynamicBinding.getFromAPI Scenarios.prototypes
            (fun _ _ => Resolved (DynamicBinding.VObj ∅))
            (fun _ _ => Resolved (DynamicBinding.VArr []))
            Scenarios.lowerCaseGet Scenarios.messagePayload DynamicBinding.quietNet)
     = Rejected (Error "Unsupported HTTP method: get").
Proof.
  assert (Hg : DynamicBinding.method Scenarios.lowerCaseGet <> Some "GET") by discriminate.
  assert (Hp : DynamicBinding.method Scenarios.lowerCaseGet <> Some "POST") by discriminate.
  split; [exact Hg|]. split; [exact Hp|].
  rewrite (getFromAPI_rejects_other_methods Scenarios.prototypes
             (fun _ _ => Resolved (DynamicBinding.VObj ∅))
             (fun _ _ => Resolved (DynamicBinding.VArr []))
             Scenarios.lowerCaseGet Scenarios.messagePayload DynamicBinding.quietNet Hg Hp).
  reflexivity.
Defined.

(** X20: the filter picks the first match.  [find] returns the first item
    whose member [filterKey] is strictly equal to [filterValue], every item
    before it having been read without a match; it returns [undefined] when
    no item matches; and it throws a TypeError when an item that is [null]
    or [undefined] comes before any match. *)
Theorem find_returns_the_first_match :
  forall (builtin : DynamicBinding.Value -> string -> DynamicBinding.Value)
         (filterKey : string) (filterValue : DynamicBinding.Value)
         (items : list DynamicBinding.Value),
    match DynamicBinding.find builtin filterKey filterValue items with
    | Resolved v =>
        (v = DynamicBinding.VUndefined /\ noneMatches builtin filterKey filterValue items)
        \/ (exists before after x,
              items = before ++ v :: after
              /\ noneMatches builtin filterKey filterValue before
              /\ DynamicBinding.getProp builtin v filterKey = Some x
              /\ DynamicBinding.strictEq x filterValue = true)
    | Rejected e =>
        e = DynamicBinding.typeError
        /\ exists before item after,
             items = before ++ item :: after
             /\ noneMatches builtin filterKey filterValue before
             /\ DynamicBinding.getProp builtin item filterKey = None
    end.
Proof. intros. apply find_outcome. Qed.

(** X21: the filter applies to arrays only.  A GET parameter without
    [queryParams] is fetched with an empty parameter object, and when
    [responsePath] is absent or empty and the response data is not an array,
    [getFromAPI] returns the data as it came, a configured filter being
    ignored, after exactly that one call and with nothing logged. *)
Theorem getFromAPI_returns_non_arrays_unfiltered :
  forall (builtin : DynamicBinding.Value -> string -> DynamicBinding.Value)
         (substitute : DynamicBinding.Template -> DynamicBinding.Value
                       -> Result JsError DynamicBinding.Value)
         (answer : list DynamicBinding.Call -> DynamicBinding.Call
                   -> Result JsError DynamicBinding.Value)
         (pc : DynamicBinding.ParameterConfig) (messagePayload data : DynamicBinding.Value)
         (n : DynamicBinding.Net),
    let call := DynamicBinding.mkCall "get"
                  (DynamicBinding.render (DynamicBinding.hostname pc)
                   +:+ DynamicBinding.render (DynamicBinding.endpoint pc))
                  (DynamicBinding.VObj ∅) in
    DynamicBinding.method pc = Some "GET" ->
    DynamicBinding.queryParams pc = None ->
    answer (DynamicBinding.calls n) call = Resolved data ->
    DynamicBinding.responsePath pc = None \/ DynamicBinding.responsePath pc = Some "" ->
    (forall items, data <> DynamicBinding.VArr items) ->
    DynamicBinding.getFromAPI builtin substitute answer pc messagePayload n
    = (Resolved data,
       DynamicBinding.mkNet (DynamicBinding.calls n ++ [call]) (DynamicBinding.consoleErrors n)).
Proof.
  intros builtin substitute answer pc messagePayload data n call Hm Hq Ha Hp Hd.
  unfold DynamicBinding.getFromAPI, DynamicBinding.fetchValue, DynamicBinding.fetch.
  rewrite (bool_decide_eq_true_2 _ Hm), Hq. simpl DynamicBinding.resolveDynamicData.
  cbv iota. fold call. rewrite Ha.
  assert (Hdata : match DynamicBinding.responsePath pc with
                  | Some p => if bool_decide (p = "") then data
                              else DynamicBinding.getFromPayload builtin p data
                  | None => data
                  end = data).
  { destruct Hp as [->| ->]; reflexivity. }
  rewrite Hdata.
  destruct data; try reflexivity. exfalso. exact (Hd items eq_refl).
Qed.

Lemma getFromAPI_returns_non_arrays_unfiltered_witness :
  DynamicBinding.method Scenarios.filteredItem = Some "GET"
  /\ fst (DynamicBinding.getFromAPI Scenarios.prototypes
            (fun _ _ => Resolved (DynamicBinding.VObj ∅))
            (fun _ _ => Resolved Scenarios.oneItem)
            Scenarios.filteredItem Scenarios.messagePayload DynamicBinding.quietNet)
     = Resolved Scenarios.oneItem.
Proof.
  split; [reflexivity|].
  rewrite (getFromAPI_returns_non_arrays_unfiltered Scenarios.prototypes
             (fun _ _ => Resolved (DynamicBinding.VObj ∅))
             (fun _ _ => Resolved Scenarios.oneItem)
             Scenarios.filteredItem Scenarios.messagePayload Scenarios.oneItem
             DynamicBinding.quietNet eq_refl eq_refl eq_refl (or_introl eq_refl)).
  - reflexivity.
  - intros items. discriminate.
Defined.
